(** * QuORAL: the APODAS stream decoder and the trace aggregator

    A shallow embedding of [photon_arrival_timings.Photon_Arrival_Timings]
    (photonarrival_1.py, the two-channel decoder; photonarrival_comments.py,
    the single-channel decoder) and of the binning done by the analysis
    scripts (analyze_1.py, analyze_2.py, analyze_comments.py).

    Python integers are unbounded: they are [Z].  A byte read from a file is
    an integer between 0 and 255.  The decoder object is a record that is
    passed along explicitly; every [write] on one of the four output handles
    is appended to one trace, so that both the content of each output file
    and the order of the writes across files can be read off. *)

From Stdlib Require Import ZArith QArith Qround Qminmax Lia Lqa Bool.
From Stdlib Require Import Sorted.
From stdpp Require Import base list.

Local Open Scope Z_scope.

(** ** The decoder object *)

(** The attributes of [Photon_Arrival_Timings] that change while decoding.
    [first_wrap_around] is the integer flag of the source (0 or 1), tested
    for truthiness.  The single-channel decoder has no [apd_b_detection]; in
    the model the field then stays at its initial value. *)
Record Photon_Arrival_Timings : Type := mkPAT {
  apd_a_detection : Z;
  apd_b_detection : Z;
  coincidence_detection : Z;
  number_of_wrap_around : Z;
  first_wrap_around : Z;
  last_udp_packet_counter : option Z
}.

(** The attributes that [__init__] sets and nothing ever changes. *)
Definition clock_period_ns : Z := 5.
Definition time_for_one_wrap_around : Z := 160.
Definition sub_data_array_size : nat := 1024.
Definition packet_header_size : nat := 90.

(** [__init__] *)
Definition PAT_init : Photon_Arrival_Timings :=
  {| apd_a_detection := 0; apd_b_detection := 0; coincidence_detection := 0;
     number_of_wrap_around := 0; first_wrap_around := 0;
     last_udp_packet_counter := None |}.

Definition set_apd_a (x : Z) (s : Photon_Arrival_Timings) :=
  mkPAT x (apd_b_detection s) (coincidence_detection s)
        (number_of_wrap_around s) (first_wrap_around s) (last_udp_packet_counter s).
Definition set_apd_b (x : Z) (s : Photon_Arrival_Timings) :=
  mkPAT (apd_a_detection s) x (coincidence_detection s)
        (number_of_wrap_around s) (first_wrap_around s) (last_udp_packet_counter s).
Definition set_coincidence (x : Z) (s : Photon_Arrival_Timings) :=
  mkPAT (apd_a_detection s) (apd_b_detection s) x
        (number_of_wrap_around s) (first_wrap_around s) (last_udp_packet_counter s).
Definition set_wrap (x : Z) (s : Photon_Arrival_Timings) :=
  mkPAT (apd_a_detection s) (apd_b_detection s) (coincidence_detection s)
        x (first_wrap_around s) (last_udp_packet_counter s).
Definition set_first (x : Z) (s : Photon_Arrival_Timings) :=
  mkPAT (apd_a_detection s) (apd_b_detection s) (coincidence_detection s)
        (number_of_wrap_around s) x (last_udp_packet_counter s).
Definition set_last (x : option Z) (s : Photon_Arrival_Timings) :=
  mkPAT (apd_a_detection s) (apd_b_detection s) (coincidence_detection s)
        (number_of_wrap_around s) (first_wrap_around s) x.

(** ** Output *)

(** The four output files of one call of [retrieve_from_log_file]. *)
Inductive handle : Type :=
  | fp_apd_a_detection
  | fp_apd_b_detection
  | fp_apd_coincidence
  | fp_packet_counter.

(** A line written to an output file: a tab-separated row of three
    integers, or one of the three lines of the trailing summary. *)
Inductive line : Type :=
  | Row (c0 c1 c2 : Z)
  | Total_missed_packets (n : Z)
  | Total_time_of_observation (n : Z)
  | Total_time_minus_missed (n : Z).

Definition write : Type := handle * line.

Definition handle_eqb (h1 h2 : handle) : bool :=
  match h1, h2 with
  | fp_apd_a_detection, fp_apd_a_detection
  | fp_apd_b_detection, fp_apd_b_detection
  | fp_apd_coincidence, fp_apd_coincidence
  | fp_packet_counter, fp_packet_counter => true
  | _, _ => false
  end.

(** The lines of one output file, in the order written. *)
Definition lines_of (h : handle) (out : list write) : list line :=
  map snd (filter (fun w => Is_true (handle_eqb (fst w) h)) out).

(** The third column of the detection rows of a trace, in the order the
    rows were written, whatever the file. *)
Fixpoint timestamps (out : list write) : list Z :=
  match out with
  | [] => []
  | (fp_packet_counter, _) :: out' => timestamps out'
  | (_, Row _ _ t) :: out' => t :: timestamps out'
  | _ :: out' => timestamps out'
  end.

(** ** The sample classifier: [detection_and_timing_of_pulses] *)

Section Classifier.

(** [true] for photonarrival_1.py, which tracks channel B; [false] for
    photonarrival_comments.py, which has neither the branches 64..95 and
    192..223 nor any of the statements on [apd_b_detection]. *)
Variable two_channel : bool.

(** Lines 89-91: the first 159 of the run sets the flag and resets the
    wrap-around counter. *)
Definition first_marker (self : Photon_Arrival_Timings) (v : Z) : Photon_Arrival_Timings :=
  if (v =? 159) && (first_wrap_around self =? 0)
  then set_wrap (-1) (set_first 1 self)
  else self.

(** A detection without overflow (value below 128) on channel A or B:
    [base] is the first value of the range. *)
Definition stamp (self : Photon_Arrival_Timings) (v base : Z) : Z :=
  (v - base) * clock_period_ns + number_of_wrap_around self * time_for_one_wrap_around.

(** Lines 92-131: the body guarded by [if self.first_wrap_around].  The
    result is the new decoder object and the writes of this sample. *)
Definition classify_sample (self : Photon_Arrival_Timings) (packet_counter v : Z)
  : Photon_Arrival_Timings * list write :=
  if first_wrap_around self =? 0 then (self, [])
  else if v <? 128 then
    if (32 <=? v) && (v <=? 63) then
      let self := set_apd_a (apd_a_detection self + 1) self in
      let time_of_occurrence_apd_a := stamp self v 32 in
      (self, [(fp_apd_a_detection,
               Row packet_counter (apd_a_detection self) time_of_occurrence_apd_a)])
    else if two_channel && ((64 <=? v) && (v <=? 95)) then
      let self := set_apd_b (apd_b_detection self + 1) self in
      let time_of_occurrence_apd_b := stamp self v 64 in
      (self, [(fp_apd_b_detection,
               Row packet_counter (apd_b_detection self) time_of_occurrence_apd_b)])
    else if (96 <=? v) && (v <=? 127) then
      let self := set_coincidence (coincidence_detection self + 1) self in
      let self := set_apd_a (apd_a_detection self + 1) self in
      let self := if two_channel then set_apd_b (apd_b_detection self + 1) self else self in
      let time_of_occurrence_coincidence := stamp self v 96 in
      (self,
       [(fp_apd_coincidence,
         Row packet_counter (coincidence_detection self) time_of_occurrence_coincidence);
        (fp_apd_a_detection,
         Row packet_counter (apd_a_detection self) time_of_occurrence_coincidence)]
       ++ (if two_channel
           then [(fp_apd_b_detection,
                  Row packet_counter (apd_b_detection self) time_of_occurrence_coincidence)]
           else []))
    else (self, [])
  else
    if v =? 159 then
      (set_wrap (number_of_wrap_around self + 1) self, [])
    else if (160 <=? v) && (v <=? 191) then
      let self := set_apd_a (apd_a_detection self + 1) self in
      let time_of_occurrence_apd_a := stamp self v 160 in
      let self := set_wrap (number_of_wrap_around self + 1) self in
      (self, [(fp_apd_a_detection,
               Row packet_counter (apd_a_detection self) time_of_occurrence_apd_a)])
    else if two_channel && ((192 <=? v) && (v <=? 223)) then
      let self := set_apd_b (apd_b_detection self + 1) self in
      let time_of_occurrence_apd_b := stamp self v 192 in
      let self := set_wrap (number_of_wrap_around self + 1) self in
      (self, [(fp_apd_b_detection,
               Row packet_counter (apd_b_detection self) time_of_occurrence_apd_b)])
    else if (224 <=? v) && (v <=? 255) then
      let self := set_coincidence (coincidence_detection self + 1) self in
      let self := set_apd_a (apd_a_detection self + 1) self in
      let self := if two_channel then set_apd_b (apd_b_detection self + 1) self else self in
      let time_of_occurrence_coincidence := stamp self v 224 in
      let self := set_wrap (number_of_wrap_around self + 1) self in
      (self,
       [(fp_apd_coincidence,
         Row packet_counter (coincidence_detection self) time_of_occurrence_coincidence);
        (fp_apd_a_detection,
         Row packet_counter (apd_a_detection self) time_of_occurrence_coincidence)]
       ++ (if two_channel
           then [(fp_apd_b_detection,
                  Row packet_counter (apd_b_detection self) time_of_occurrence_coincidence)]
           else []))
    else (self, []).

(** One iteration of the loop over the payload, lines 89-131. *)
Definition sample_step (self : Photon_Arrival_Timings) (packet_counter v : Z)
  : Photon_Arrival_Timings * list write :=
  classify_sample (first_marker self v) packet_counter v.

(** The samples of a payload in order, by their values. *)
Fixpoint classify_all (self : Photon_Arrival_Timings) (packet_counter : Z) (l : list Z)
  : Photon_Arrival_Timings * list write :=
  match l with
  | [] => (self, [])
  | v :: l' =>
      let '(self1, w1) := sample_step self packet_counter v in
      let '(self2, w2) := classify_all self1 packet_counter l' in
      (self2, w1 ++ w2)
  end.

(** [for i in range(actual_length)] with [sub_data_array[i]] read through
    the index: an index outside the list is Python's IndexError, here
    [None]. *)
Fixpoint for_range (idx : list nat) (sub_data_array : list Z)
    (self : Photon_Arrival_Timings) (packet_counter : Z)
  : option (Photon_Arrival_Timings * list write) :=
  match idx with
  | [] => Some (self, [])
  | i :: idx' =>
      match sub_data_array !! i with
      | None => None
      | Some v =>
          let '(self1, w1) := sample_step self packet_counter v in
          match for_range idx' sub_data_array self1 packet_counter with
          | None => None
          | Some (self2, w2) => Some (self2, w1 ++ w2)
          end
      end
  end.

Definition detection_and_timing_of_pulses (self : Photon_Arrival_Timings)
    (sub_data_array : list Z) (packet_counter : Z)
  : option (Photon_Arrival_Timings * list write) :=
  let actual_length := length sub_data_array in
  for_range (seq 0 actual_length) sub_data_array self packet_counter.

End Classifier.

(** ** The capture file *)

(** A file opened in binary mode: its bytes and the read position.
    [seek] may leave the position beyond the end; [read] then returns
    nothing. *)
Record file_obj : Type := mkFile {
  data : list Z;
  position : nat
}.

(** [fp.read(n)] *)
Definition read (n : nat) (f : file_obj) : list Z * file_obj :=
  let chunk := take n (drop (position f) (data f)) in
  (chunk, mkFile (data f) (position f + length chunk)).

(** [fp.seek(offset, 0)] *)
Definition seek_set (offset : nat) (f : file_obj) : file_obj :=
  mkFile (data f) offset.

(** [fp.seek(offset, 1)]: a negative target is an OSError, here [None]. *)
Definition seek_cur (offset : Z) (f : file_obj) : option file_obj :=
  let target := Z.of_nat (position f) + offset in
  if target <? 0 then None else Some (mkFile (data f) (Z.to_nat target)).

(** ** The packet loop: [retrieve_from_log_file] *)

Inductive exn : Type := StopIteration | IndexError | OSError.

(** The decoder object, the input file, what has been written so far and
    the local variables of [retrieve_from_log_file]. *)
Record frame : Type := mkFrame {
  self : Photon_Arrival_Timings;
  fp_file : file_obj;
  out : list write;
  packet_header : list Z;
  packet_counter : Z;
  difference : option Z;
  total_missed_packets : Z
}.

Definition set_self (x : Photon_Arrival_Timings) (fr : frame) :=
  mkFrame x (fp_file fr) (out fr) (packet_header fr) (packet_counter fr)
          (difference fr) (total_missed_packets fr).
Definition set_fp_file (x : file_obj) (fr : frame) :=
  mkFrame (self fr) x (out fr) (packet_header fr) (packet_counter fr)
          (difference fr) (total_missed_packets fr).
Definition set_out (x : list write) (fr : frame) :=
  mkFrame (self fr) (fp_file fr) x (packet_header fr) (packet_counter fr)
          (difference fr) (total_missed_packets fr).
Definition set_packet_header (x : list Z) (fr : frame) :=
  mkFrame (self fr) (fp_file fr) (out fr) x (packet_counter fr)
          (difference fr) (total_missed_packets fr).
Definition set_packet_counter (x : Z) (fr : frame) :=
  mkFrame (self fr) (fp_file fr) (out fr) (packet_header fr) x
          (difference fr) (total_missed_packets fr).
Definition set_difference (x : option Z) (fr : frame) :=
  mkFrame (self fr) (fp_file fr) (out fr) (packet_header fr) (packet_counter fr)
          x (total_missed_packets fr).
Definition set_total_missed_packets (x : Z) (fr : frame) :=
  mkFrame (self fr) (fp_file fr) (out fr) (packet_header fr) (packet_counter fr)
          (difference fr) x.

(** A statement either falls through to the next one or raises. *)
Inductive flow : Type :=
  | Normal (fr : frame)
  | Raised (e : exn) (fr : frame).

(** The resynchronization marker, ASCII "EXP.". *)
Definition marker : list Z := [69; 88; 80; 46].

Section PacketLoop.

Variable two_channel : bool.

(** Lines 45-49: the header is read one byte at a time into the
    preallocated list. *)
Fixpoint read_header (idx : list nat) (fr : frame) : flow :=
  match idx with
  | [] => Normal fr
  | i :: idx' =>
      let '(fp_file_chunk, f1) := read 1 (fp_file fr) in
      let fr := set_fp_file f1 fr in
      match fp_file_chunk with
      | [] => Raised StopIteration fr
      | b :: _ =>
          if (i <? length (packet_header fr))%nat
          then read_header idx' (set_packet_header (<[i:=b]> (packet_header fr)) fr)
          else Raised IndexError fr
      end
  end.

(** Line 50: [packet_header[32] * 256 + packet_header[33]]; an index
    outside the list is an IndexError, here [None]. *)
Definition packet_length_of (h : list Z) : option Z :=
  match h !! 32%nat, h !! 33%nat with
  | Some b32, Some b33 => Some (b32 * 256 + b33)
  | _, _ => None
  end.

(** Line 52: the big-endian sequence counter in bytes 86..89. *)
Definition udp_packet_counter_of (h : list Z) : option Z :=
  match h !! 86%nat, h !! 87%nat, h !! 88%nat, h !! 89%nat with
  | Some b86, Some b87, Some b88, Some b89 =>
      Some (b86 * 16777216 + b87 * 65536 + b88 * 256 + b89)
  | _, _, _, _ => None
  end.

(** Lines 52-60: the sequence counter, the accounting of missed packets and
    the row of the packet-counter file. *)
Definition account_packet (fr : frame) : flow :=
  match udp_packet_counter_of (packet_header fr) with
  | Some udp_packet_counter =>
      let fr :=
        match last_udp_packet_counter (self fr) with
        | Some last =>
            let d := udp_packet_counter - last in
            let fr := set_difference (Some d) fr in
            if negb (d =? 1)
            then
              let fr :=
                set_self (set_wrap (number_of_wrap_around (self fr) + (d - 1) * 1024)
                                   (self fr)) fr in
              set_total_missed_packets (total_missed_packets fr + (d - 1)) fr
            else fr
        | None => fr
        end in
      let fr :=
        set_out (out fr ++
                 [(fp_packet_counter,
                   Row (packet_counter fr) udp_packet_counter
                       (match difference fr with Some d => d | None => 1 end))]) fr in
      Normal (set_self (set_last (Some udp_packet_counter) (self fr)) fr)
  | None => Raised IndexError fr
  end.

(** Lines 62-64: the payload is whatever [read] returns, at most 1024
    bytes. *)
Definition read_payload (fr : frame) : flow :=
  let '(chunk, f1) := read sub_data_array_size (fp_file fr) in
  let fr := set_fp_file f1 fr in
  let sub_data_array := chunk in
  match detection_and_timing_of_pulses two_channel (self fr) sub_data_array
                                       (packet_counter fr) with
  | None => Raised IndexError fr
  | Some (self1, w) =>
      Normal (set_packet_counter (packet_counter fr + 1)
                (set_out (out fr ++ w) (set_self self1 fr)))
  end.

(** Lines 67-75: the inner [while True].  [None] only when the fuel runs
    out. *)
Fixpoint resynchronize (fuel : nat) (fr : frame) : option flow :=
  match fuel with
  | O => None
  | S fuel' =>
      let '(chunk, f1) := read 4 (fp_file fr) in
      let fr := set_fp_file f1 fr in
      if decide (chunk = marker) then
        match seek_cur (-76) (fp_file fr) with
        | None => Some (Raised OSError fr)
        | Some f2 => Some (Normal (set_fp_file f2 fr))
        end
      else if decide (chunk = []) then Some (Raised StopIteration fr)
      else resynchronize fuel' fr
  end.

(** Lines 45-75: one turn of the outer [while True]. *)
Definition packet_iteration (fr : frame) : option flow :=
  match read_header (seq 0 packet_header_size) fr with
  | Raised e fr1 => Some (Raised e fr1)
  | Normal fr1 =>
      match packet_length_of (packet_header fr1) with
      | Some packet_length =>
          if packet_length =? 1052 then
            match account_packet fr1 with
            | Raised e fr2 => Some (Raised e fr2)
            | Normal fr2 => Some (read_payload fr2)
            end
          else resynchronize (S (length (data (fp_file fr1)))) fr1
      | None => Some (Raised IndexError fr1)
      end
  end.

(** The outer [while True] leaves only through an exception; the result is
    that exception and the frame at that point.  [None] only when the fuel
    runs out. *)
Fixpoint packet_loop (fuel : nat) (fr : frame) : option (exn * frame) :=
  match fuel with
  | O => None
  | S fuel' =>
      match packet_iteration fr with
      | None => None
      | Some (Raised e fr1) => Some (e, fr1)
      | Some (Normal fr1) => packet_loop fuel' fr1
      end
  end.

(** Lines 77-79: the three lines that close the packet-counter file. *)
Definition summary (fr : frame) : list write :=
  [(fp_packet_counter, Total_missed_packets (total_missed_packets fr));
   (fp_packet_counter,
    Total_time_of_observation
      (number_of_wrap_around (self fr) * time_for_one_wrap_around));
   (fp_packet_counter,
    Total_time_minus_missed
      ((number_of_wrap_around (self fr) - total_missed_packets fr * 1024)
       * time_for_one_wrap_around))].

(** What a call of [retrieve_from_log_file] comes to: it returns, with the
    decoder object as it then is and the lines written to the four files, or
    an exception other than StopIteration leaves the method. *)
Inductive outcome : Type :=
  | Returns (self' : Photon_Arrival_Timings) (written : list write)
  | Uncaught (e : exn).

(** Lines 76-83: [except StopIteration: pass], then the summary. *)
Definition finalize (r : option (exn * frame)) : option outcome :=
  match r with
  | None => None
  | Some (StopIteration, fr) => Some (Returns (self fr) (out fr ++ summary fr))
  | Some (e, _) => Some (Uncaught e)
  end.

(** Lines 36-42: the frame in which the loop starts. *)
Definition initial_frame (self0 : Photon_Arrival_Timings) (file : list Z) : frame :=
  {| self := self0;
     fp_file := seek_set 24 (mkFile file 0);
     out := [];
     packet_header := replicate packet_header_size 0;
     packet_counter := 1;
     difference := None;
     total_missed_packets := 0 |}.

Definition retrieve_from_log_file (self0 : Photon_Arrival_Timings) (file : list Z)
  : option outcome :=
  finalize (packet_loop (S (length file)) (initial_frame self0 file)).

(** [for file in raw_data_files: PAT.retrieve_from_log_file(file)]: one
    decoder object for the whole run; the result is that object at the end
    and the output of each file. *)
Fixpoint run (self0 : Photon_Arrival_Timings) (files : list (list Z))
  : option (Photon_Arrival_Timings * list (list write)) :=
  match files with
  | [] => Some (self0, [])
  | file :: files' =>
      match retrieve_from_log_file self0 file with
      | Some (Returns self1 w) =>
          match run self1 files' with
          | Some (self2, ws) => Some (self2, w :: ws)
          | None => None
          end
      | _ => None
      end
  end.

End PacketLoop.

(** ** Vocabulary of the specification *)

(** The classification ranges of a sample, as the specification's table
    gives them. *)
Definition is_channel_a (v : Z) : bool :=
  ((32 <=? v) && (v <=? 63)) || ((160 <=? v) && (v <=? 191)).
Definition is_channel_b (v : Z) : bool :=
  ((64 <=? v) && (v <=? 95)) || ((192 <=? v) && (v <=? 223)).
Definition is_coincidence (v : Z) : bool :=
  ((96 <=? v) && (v <=? 127)) || ((224 <=? v) && (v <=? 255)).

(** How many samples of a list satisfy a test. *)
Definition count_samples (p : Z -> bool) (l : list Z) : nat :=
  length (List.filter p l).

(** The samples for which a decoder of the given variant writes rows: the
    base of the range and whether the sample is in overflow form. *)
Definition event_kind (two_channel : bool) (v : Z) : option (Z * bool) :=
  if (32 <=? v) && (v <=? 63) then Some (32, false)
  else if two_channel && ((64 <=? v) && (v <=? 95)) then Some (64, false)
  else if (96 <=? v) && (v <=? 127) then Some (96, false)
  else if (160 <=? v) && (v <=? 191) then Some (160, true)
  else if two_channel && ((192 <=? v) && (v <=? 223)) then Some (192, true)
  else if (224 <=? v) && (v <=? 255) then Some (224, true)
  else None.


(** The 90 bytes at the read position, and the frame once they have been
    read into [packet_header]. *)
Definition header_at (f : file_obj) : list Z :=
  take packet_header_size (drop (position f) (data f)).

Definition after_header (fr : frame) : frame :=
  set_packet_header (header_at (fp_file fr))
    (set_fp_file (mkFile (data (fp_file fr))
                         (position (fp_file fr) + packet_header_size)) fr).

(** The packets lost between the last sequence counter seen and the
    current one. *)
Definition missed_packets (last : option Z) (udp_packet_counter : Z) : Z :=
  match last with
  | Some l => udp_packet_counter - l - 1
  | None => 0
  end.

(** Scanning forward four bytes at a time for the marker: the number of
    whole chunks passed over before the first chunk equal to "EXP.", if
    there is one before the bytes run out. *)
Fixpoint find_marker_chunk (rest : list Z) : option nat :=
  match rest with
  | b0 :: b1 :: b2 :: b3 :: rest' =>
      if decide ([b0; b1; b2; b3] = marker) then Some O
      else option_map S (find_marker_chunk rest')
  | _ => None
  end.

(** ** Sample inputs *)

(** A 90-byte header with the given length bytes, the marker at offset 72
    and the given low byte of the sequence counter. *)
Definition sample_header (len_hi len_lo counter : Z) : list Z :=
  replicate 32 0 ++ [len_hi; len_lo] ++ replicate 38 0 ++ marker
  ++ replicate 10 0 ++ [0; 0; 0; counter].

(** A decoder that has seen the first marker and a packet with sequence
    counter 5, about to read, as the second packet of a file, a valid packet
    with sequence counter 8 and a one-byte payload. *)
Definition sample_gap_frame : frame :=
  {| self := set_last (Some 5) (set_first 1 PAT_init);
     fp_file := mkFile (replicate 24 0 ++ sample_header 4 28 8 ++ [40]) 24;
     out := [];
     packet_header := replicate packet_header_size 0;
     packet_counter := 2;
     difference := Some 1;
     total_missed_packets := 0 |}.

(** A file whose only header declares length 0; the second chunk after the
    header is the marker. *)
Definition sample_resync_file : list Z :=
  replicate 24 0 ++ sample_header 0 0 1 ++ [1; 2; 3; 4] ++ marker ++ [5; 6].

(** A file whose only header declares length 0, with no marker after it. *)
Definition sample_lost_file : list Z :=
  replicate 24 0 ++ sample_header 0 0 1 ++ [1; 2; 3; 4; 5; 6].

(** A file with one valid packet cut after three payload bytes. *)
Definition sample_short_file : list Z :=
  replicate 24 0 ++ sample_header 4 28 7 ++ [159; 40; 100].

(** ** The trace aggregator: the analysis scripts *)

(** The timestamps are floating-point numbers in the scripts.  Here they
    are exact rationals: rounding is not modelled.  [np.arange] and
    [np.histogram] belong to NumPy, not to this repository; they are given as
    NumPy documents them. *)

Local Open Scope Q_scope.
















Local Close Scope Q_scope.

(** ** Reading the output files *)

(** The rows of the detection files and of the packet-counter file, as
    against the three lines of the summary, and their columns. *)
Definition is_row (ln : line) : bool :=
  match ln with
  | Row _ _ _ => true
  | _ => false
  end.

Definition col0 (ln : line) : Z :=
  match ln with
  | Row c _ _ => c
  | Total_missed_packets n | Total_time_of_observation n
  | Total_time_minus_missed n => n
  end.

Definition col1 (ln : line) : Z :=
  match ln with
  | Row _ c _ => c
  | Total_missed_packets n | Total_time_of_observation n
  | Total_time_minus_missed n => n
  end.

Definition col2 (ln : line) : Z :=
  match ln with
  | Row _ _ c => c
  | Total_missed_packets n | Total_time_of_observation n
  | Total_time_minus_missed n => n
  end.

(** The counter of the decoder object that numbers the rows of a detection
    file. *)
Definition counter_of (h : handle) (s : Photon_Arrival_Timings) : Z :=
  match h with
  | fp_apd_a_detection => apd_a_detection s
  | fp_apd_b_detection => apd_b_detection s
  | fp_apd_coincidence => coincidence_detection s
  | fp_packet_counter => 0
  end.

(** The integers first, first+1, ..., first+n-1. *)
Definition Zrange (first : Z) (n : nat) : list Z :=
  map (fun i : nat => first + Z.of_nat i) (seq 0 n).

(** The samples that move the wrap-around counter on once the flag is set:
    the marker and the events in overflow form that the variant tracks. *)
Definition advances_wrap (two_channel : bool) (v : Z) : bool :=
  (v =? 159)
  || ((160 <=? v) && (v <=? 191))
  || (two_channel && ((192 <=? v) && (v <=? 223)))
  || ((224 <=? v) && (v <=? 255)).

(** ** The names of the output files *)

From Stdlib Require String.

Module FileNames.

Import String.
Local Open Scope string_scope.

(** Lines 7-10 of [__init__]. *)
Definition apd_a_detection_prefix : string := "APD_A_detection_timimngs".
Definition apd_b_detection_prefix : string := "APD_B_detection_timimngs".
Definition packet_counter_prefix : string := "Packet_counter".
Definition apd_coincident_prefix : string := "APD_coincident_detection_timimngs".

(** Lines 31-34: the prefix under which each output file is opened. *)
Definition prefix_of (h : handle) : string :=
  match h with
  | fp_apd_a_detection => apd_a_detection_prefix
  | fp_apd_b_detection => apd_b_detection_prefix
  | fp_apd_coincidence => apd_coincident_prefix
  | fp_packet_counter => packet_counter_prefix
  end.

(** Lines 23-24: [with_suffix_dat] stands for pathlib's
    [str(Path(file).with_suffix('.dat'))]. *)
Definition make_file_name (with_suffix_dat : string -> string)
    (prefix file : string) : string :=
  prefix ++ "_" ++ with_suffix_dat file.

(** Lines 26-27: [join] and [basename] stand for [os.path.join] and
    [os.path.basename]. *)
Definition make_file_path (join : string -> string -> string)
    (basename with_suffix_dat : string -> string)
    (archive_path prefix file : string) : string :=
  join archive_path (make_file_name with_suffix_dat prefix (basename file)).

End FileNames.

(** ** A file as a sequence of packets *)

(** What the packet loop carries from one valid packet to the next, apart
    from the file and the header list: the decoder object, the lines
    written, and the locals [packet_counter], [difference] and
    [total_missed_packets]. *)
Record progress : Type := mkProgress {
  dec : Photon_Arrival_Timings;
  written : list write;
  pkt_no : Z;
  last_delta : option Z;
  missed : Z
}.

Definition progress_of (fr : frame) : progress :=
  mkProgress (self fr) (out fr) (packet_counter fr) (difference fr)
             (total_missed_packets fr).

(** The start of a call of [retrieve_from_log_file]. *)
Definition start (self0 : Photon_Arrival_Timings) : progress :=
  mkProgress self0 [] 1 None 0.

(** Lines 52-64 for a packet with sequence counter [fst pkt] and payload
    [snd pkt]: the accounting, then the classification of the payload. *)
Definition decode_packet (two_channel : bool) (st : progress) (pkt : Z * list Z)
  : progress :=
  let cur := fst pkt in
  let last := last_udp_packet_counter (dec st) in
  let m := missed_packets last cur in
  let d := match last with Some l => Some (cur - l) | None => last_delta st end in
  let r := classify_all two_channel
             (set_last (Some cur)
                (set_wrap (number_of_wrap_around (dec st) + m * 1024) (dec st)))
             (pkt_no st) (snd pkt) in
  mkProgress (fst r)
             ((written st
               ++ [(fp_packet_counter,
                    Row (pkt_no st) cur (match d with Some x => x | None => 1 end))])
              ++ snd r)
             (pkt_no st + 1) d (missed st + m).

Definition decode_packets (two_channel : bool) (pkts : list (Z * list Z))
    (st : progress) : progress :=
  fold_left (decode_packet two_channel) pkts st.

(** The third column of the accounting row of a packet. *)
Definition delta_of (st : progress) (cur : Z) : Z :=
  match last_udp_packet_counter (dec st) with
  | Some l => cur - l
  | None => match last_delta st with Some x => x | None => 1 end
  end.

(** Lines 77-79, from what the loop has carried to its end. *)
Definition summary_of (st : progress) : list write :=
  [(fp_packet_counter, Total_missed_packets (missed st));
   (fp_packet_counter,
    Total_time_of_observation
      (number_of_wrap_around (dec st) * time_for_one_wrap_around));
   (fp_packet_counter,
    Total_time_minus_missed
      ((number_of_wrap_around (dec st) - missed st * 1024)
       * time_for_one_wrap_around))].

(** A capture file without damage: the 24 bytes of the file header, then
    for each packet its 90-byte header and its payload. *)
Definition capture (file_header : list Z) (packets : list (list Z * list Z))
  : list Z :=
  file_header ++ concat (map (fun hp => fst hp ++ snd hp) packets).

(** The sum of a list of integers. *)
Definition sum_Z (l : list Z) : Z := fold_right Z.add 0 l.

(** The sequence counter and the payload of a packet given by its header
    and its payload. *)
Definition packet_of (hp : list Z * list Z) : Z * list Z :=
  (match udp_packet_counter_of (fst hp) with Some c => c | None => 0 end,
   snd hp).

(** A packet as an intact capture file has it: a header of 90 bytes that
    declares length 1052, and a payload of 1024 bytes. *)
Definition intact_packet (hp : list Z * list Z) : Prop :=
  length (fst hp) = packet_header_size
  /\ packet_length_of (fst hp) = Some 1052
  /\ length (snd hp) = sub_data_array_size.

(** * Properties of the sample classifier *)

Ltac split_tests :=
  repeat (match goal with
          | |- context [(?a <=? ?b)] => destruct (Z.leb_spec a b)
          | |- context [(?a <? ?b)] => destruct (Z.ltb_spec a b)
          | |- context [(?a =? ?b)] => destruct (Z.eqb_spec a b)
          end; try lia; cbn [andb orb negb]).

Ltac unfold_step :=
  unfold sample_step, first_marker, classify_sample, stamp,
         clock_period_ns, time_for_one_wrap_around.

(** Once the flag is set, lines 89-91 do nothing. *)
Lemma first_marker_set self v :
  first_wrap_around self <> 0 -> first_marker self v = self.
Proof.
  intros Hf. unfold first_marker.
  destruct (Z.eqb_spec (first_wrap_around self) 0); [contradiction|].
  rewrite andb_false_r. reflexivity.
Qed.

Ltac unfold_set_step Hf :=
  unfold sample_step; rewrite (first_marker_set _ _ Hf);
  unfold classify_sample, stamp, clock_period_ns, time_for_one_wrap_around;
  match goal with
  | |- context [first_wrap_around ?s =? 0] =>
      destruct (Z.eqb_spec (first_wrap_around s) 0) as [?|_]; [contradiction|]
  end.

Lemma lines_of_app h (w1 w2 : list write) :
  lines_of h (w1 ++ w2) = lines_of h w1 ++ lines_of h w2.
Proof. unfold lines_of. rewrite filter_app, map_app. reflexivity. Qed.

Lemma timestamps_app (w1 w2 : list write) :
  timestamps (w1 ++ w2) = timestamps w1 ++ timestamps w2.
Proof.
  induction w1 as [|[h ln] w1 IH]; simpl; [reflexivity|].
  destruct h, ln; simpl; rewrite IH; reflexivity.
Qed.

Lemma count_samples_cons p v l :
  count_samples p (v :: l) = ((if p v then 1 else 0) + count_samples p l)%nat.
Proof. unfold count_samples. simpl. destruct (p v); reflexivity. Qed.

Lemma sorted_cons_bound (t : Z) (r : list Z) :
  Sorted Z.le r -> Forall (Z.le t) r -> Sorted Z.le (t :: r).
Proof.
  intros Hs Hb. constructor; [assumption|].
  destruct r; constructor. inversion Hb; assumption.
Qed.

Section ClassifierFacts.

Variable two_channel : bool.

(** Reading the payload through its indices never leaves the list: the
    loop is the traversal of the list itself. *)
Lemma for_range_seq (pre l : list Z) self pc :
  for_range two_channel (seq (length pre) (length l)) (pre ++ l) self pc
  = Some (classify_all two_channel self pc l).
Proof.
  revert pre self. induction l as [|v l IH]; intros pre self; simpl.
  - reflexivity.
  - rewrite lookup_app_r by lia. rewrite Nat.sub_diag. simpl.
    destruct (sample_step two_channel self pc v) as [self1 w1].
    replace (pre ++ v :: l) with ((pre ++ [v]) ++ l) by (rewrite <- app_assoc; reflexivity).
    replace (S (length pre)) with (length (pre ++ [v])) by (rewrite length_app; simpl; lia).
    rewrite IH. destruct (classify_all two_channel self1 pc l). reflexivity.
Qed.

Lemma detection_and_timing_of_pulses_total self l pc :
  detection_and_timing_of_pulses two_channel self l pc
  = Some (classify_all two_channel self pc l).
Proof. unfold detection_and_timing_of_pulses. apply (for_range_seq []). Qed.

Lemma classify_all_app self pc l1 l2 :
  classify_all two_channel self pc (l1 ++ l2)
  = let '(s1, w1) := classify_all two_channel self pc l1 in
    let '(s2, w2) := classify_all two_channel s1 pc l2 in
    (s2, w1 ++ w2).
Proof.
  revert self. induction l1 as [|v l1 IH]; intros self; simpl.
  - destruct (classify_all two_channel self pc l2); reflexivity.
  - destruct (sample_step two_channel self pc v) as [s1 w1].
    rewrite IH. destruct (classify_all two_channel s1 pc l1) as [s2 w2].
    destruct (classify_all two_channel s2 pc l2) as [s3 w3].
    rewrite app_assoc. reflexivity.
Qed.

(** Before the first marker every sample but 159 is passed over. *)
Lemma sample_step_unset self pc v :
  first_wrap_around self = 0 -> v <> 159 ->
  sample_step two_channel self pc v = (self, []).
Proof.
  intros Hf Hv. unfold_step. rewrite Hf.
  destruct (Z.eqb_spec v 159); [contradiction|]. simpl. rewrite Hf. reflexivity.
Qed.

Lemma classify_all_unset self pc l :
  first_wrap_around self = 0 -> ~ In 159 l ->
  classify_all two_channel self pc l = (self, []).
Proof.
  intros Hf. induction l as [|v l IH]; intros Hl; simpl; [reflexivity|].
  rewrite sample_step_unset by (auto; intros ->; apply Hl; left; reflexivity).
  rewrite IH by (intros H; apply Hl; right; exact H). reflexivity.
Qed.

(** The first marker of the run: flag set, counter at 0 afterwards. *)
Lemma sample_step_first self pc :
  first_wrap_around self = 0 ->
  sample_step two_channel self pc 159 = (set_wrap 0 (set_first 1 self), []).
Proof. intros Hf. unfold_step. rewrite Hf. reflexivity. Qed.

(** What one sample does to the counters and to the number of rows of each
    file, once the flag is set. *)
Lemma sample_step_counts self pc v :
  first_wrap_around self <> 0 ->
  let r := sample_step two_channel self pc v in
  let a := if is_channel_a v || is_coincidence v then 1%nat else 0%nat in
  let c := if is_coincidence v then 1%nat else 0%nat in
  let b := if two_channel && (is_channel_b v || is_coincidence v)
           then 1%nat else 0%nat in
  first_wrap_around (fst r) <> 0
  /\ length (lines_of fp_apd_a_detection (snd r)) = a
  /\ length (lines_of fp_apd_coincidence (snd r)) = c
  /\ length (lines_of fp_apd_b_detection (snd r)) = b
  /\ apd_a_detection (fst r) = apd_a_detection self + Z.of_nat a
  /\ coincidence_detection (fst r) = coincidence_detection self + Z.of_nat c
  /\ apd_b_detection (fst r) = apd_b_detection self + Z.of_nat b.
Proof.
  intros Hf. unfold_set_step Hf.
  unfold is_channel_a, is_channel_b, is_coincidence.
  split_tests; destruct two_channel; cbn; repeat split; lia.
Qed.

Lemma classify_all_counts self pc l :
  first_wrap_around self <> 0 ->
  let r := classify_all two_channel self pc l in
  let a := count_samples (fun v => is_channel_a v || is_coincidence v) l in
  let c := count_samples is_coincidence l in
  let b := count_samples
             (fun v => two_channel && (is_channel_b v || is_coincidence v)) l in
  first_wrap_around (fst r) <> 0
  /\ length (lines_of fp_apd_a_detection (snd r)) = a
  /\ length (lines_of fp_apd_coincidence (snd r)) = c
  /\ length (lines_of fp_apd_b_detection (snd r)) = b
  /\ apd_a_detection (fst r) = apd_a_detection self + Z.of_nat a
  /\ coincidence_detection (fst r) = coincidence_detection self + Z.of_nat c
  /\ apd_b_detection (fst r) = apd_b_detection self + Z.of_nat b.
Proof.
  revert self. induction l as [|v l IH]; intros self Hf.
  - cbn. repeat split; try lia; assumption.
  - cbn zeta. rewrite !count_samples_cons. simpl classify_all.
    pose proof (sample_step_counts self pc v Hf) as Hs. cbn zeta in Hs.
    destruct (sample_step two_channel self pc v) as [s1 w1]. simpl in Hs.
    destruct Hs as (Hf1 & Ha & Hc & Hb & Ea & Ec & Eb).
    specialize (IH s1 Hf1). cbn zeta in IH.
    destruct (classify_all two_channel s1 pc l) as [s2 w2]. simpl in IH |- *.
    destruct IH as (Hf2 & Ha2 & Hc2 & Hb2 & Ea2 & Ec2 & Eb2).
    rewrite !lines_of_app, !length_app. repeat split; try assumption; lia.
Qed.

(** The timestamps written for one sample are all the same, the offset of
    the sample in its range times 5 plus the counter before the sample times
    160; the counter moves on for a marker and for an event in overflow
    form. *)
Lemma sample_step_stamps self pc v :
  first_wrap_around self <> 0 ->
  let r := sample_step two_channel self pc v in
  let w := number_of_wrap_around self in
  first_wrap_around (fst r) <> 0
  /\ match event_kind two_channel v with
     | Some (base, overflow) =>
         0 <= v - base <= 31
         /\ Forall (eq ((v - base) * 5 + w * 160)) (timestamps (snd r))
         /\ number_of_wrap_around (fst r) = (if overflow then w + 1 else w)
     | None =>
         timestamps (snd r) = []
         /\ number_of_wrap_around (fst r) = (if v =? 159 then w + 1 else w)
     end.
Proof.
  intros Hf. unfold_set_step Hf. unfold event_kind.
  split_tests; destruct two_channel; cbn;
    repeat split; try lia; repeat constructor.
Qed.

Lemma sorted_same_app (t : Z) (l1 r : list Z) :
  Forall (eq t) l1 -> Sorted Z.le r -> Forall (Z.le t) r ->
  Sorted Z.le (l1 ++ r) /\ Forall (Z.le t) (l1 ++ r).
Proof.
  intros H1 Hs Hb. induction H1 as [|x l1 <- _ [IHs IHb]]; simpl.
  - split; assumption.
  - split.
    + apply sorted_cons_bound; assumption.
    + constructor; [lia | assumption].
Qed.


End ClassifierFacts.

Section ClassifierClaims.

Variable two_channel : bool.

(** C1.  After the first wrap-around marker has been seen, a sample in
    32..63 adds one to [apd_a_detection] and writes one channel-A row with
    timestamp (v-32)*5 + number_of_wrap_around*160; a sample in 96..127 adds
    one to [coincidence_detection] and [apd_a_detection] (and to
    [apd_b_detection] in the two-channel decoder) and writes a coincidence
    row and a channel-A row (and a channel-B row), all with timestamp
    (v-96)*5 + number_of_wrap_around*160.  Nothing else changes. *)
Theorem C1_non_overflow_events (self : Photon_Arrival_Timings) (pc v : Z) :
  first_wrap_around self <> 0 ->
  (32 <= v <= 63 ->
   sample_step two_channel self pc v
   = (set_apd_a (apd_a_detection self + 1) self,
      [(fp_apd_a_detection,
        Row pc (apd_a_detection self + 1)
            ((v - 32) * 5 + number_of_wrap_around self * 160))]))
  /\
  (96 <= v <= 127 ->
   let ts := (v - 96) * 5 + number_of_wrap_around self * 160 in
   sample_step two_channel self pc v
   = if two_channel
     then (mkPAT (apd_a_detection self + 1) (apd_b_detection self + 1)
                 (coincidence_detection self + 1) (number_of_wrap_around self)
                 (first_wrap_around self) (last_udp_packet_counter self),
           [(fp_apd_coincidence, Row pc (coincidence_detection self + 1) ts);
            (fp_apd_a_detection, Row pc (apd_a_detection self + 1) ts);
            (fp_apd_b_detection, Row pc (apd_b_detection self + 1) ts)])
     else (mkPAT (apd_a_detection self + 1) (apd_b_detection self)
                 (coincidence_detection self + 1) (number_of_wrap_around self)
                 (first_wrap_around self) (last_udp_packet_counter self),
           [(fp_apd_coincidence, Row pc (coincidence_detection self + 1) ts);
            (fp_apd_a_detection, Row pc (apd_a_detection self + 1) ts)])).
Proof.
  intros Hf. split; intros Hv; unfold_set_step Hf.
  - split_tests; reflexivity.
  - split_tests; destruct two_channel; reflexivity.
Qed.

(** C2.  After the first marker, an event in overflow form is stamped with
    the wrap-around counter as it is before the sample, (v-160)*5 +
    number_of_wrap_around*160 on channel A and (v-224)*5 +
    number_of_wrap_around*160 for a coincidence, and the counter is then one
    more. *)
Theorem C2_overflow_events (self : Photon_Arrival_Timings) (pc v : Z) :
  first_wrap_around self <> 0 ->
  (160 <= v <= 191 ->
   sample_step two_channel self pc v
   = (mkPAT (apd_a_detection self + 1) (apd_b_detection self)
            (coincidence_detection self) (number_of_wrap_around self + 1)
            (first_wrap_around self) (last_udp_packet_counter self),
      [(fp_apd_a_detection,
        Row pc (apd_a_detection self + 1)
            ((v - 160) * 5 + number_of_wrap_around self * 160))]))
  /\
  (224 <= v <= 255 ->
   let ts := (v - 224) * 5 + number_of_wrap_around self * 160 in
   sample_step two_channel self pc v
   = if two_channel
     then (mkPAT (apd_a_detection self + 1) (apd_b_detection self + 1)
                 (coincidence_detection self + 1) (number_of_wrap_around self + 1)
                 (first_wrap_around self) (last_udp_packet_counter self),
           [(fp_apd_coincidence, Row pc (coincidence_detection self + 1) ts);
            (fp_apd_a_detection, Row pc (apd_a_detection self + 1) ts);
            (fp_apd_b_detection, Row pc (apd_b_detection self + 1) ts)])
     else (mkPAT (apd_a_detection self + 1) (apd_b_detection self)
                 (coincidence_detection self + 1) (number_of_wrap_around self + 1)
                 (first_wrap_around self) (last_udp_packet_counter self),
           [(fp_apd_coincidence, Row pc (coincidence_detection self + 1) ts);
            (fp_apd_a_detection, Row pc (apd_a_detection self + 1) ts)])).
Proof.
  intros Hf. split; intros Hv; unfold_set_step Hf.
  - split_tests; reflexivity.
  - split_tests; destruct two_channel; reflexivity.
Qed.


End ClassifierClaims.

Lemma C1_non_overflow_events_witness :
  sample_step true (set_first 1 PAT_init) 1 40
  = (set_apd_a 1 (set_first 1 PAT_init), [(fp_apd_a_detection, Row 1 1 40)])
  /\ snd (sample_step false (set_first 1 PAT_init) 1 100)
     = [(fp_apd_coincidence, Row 1 1 20); (fp_apd_a_detection, Row 1 1 20)].
Proof.
  split.
  - apply (C1_non_overflow_events true (set_first 1 PAT_init) 1 40); simpl; lia.
  - rewrite (proj2 (C1_non_overflow_events false (set_first 1 PAT_init) 1 100
                      ltac:(simpl; lia)) ltac:(lia)).
    reflexivity.
Defined.

Lemma C2_overflow_events_witness :
  sample_step true (set_first 1 PAT_init) 1 170
  = (set_wrap 1 (set_apd_a 1 (set_first 1 PAT_init)),
     [(fp_apd_a_detection, Row 1 1 50)])
  /\ snd (sample_step false (set_first 1 PAT_init) 1 230)
     = [(fp_apd_coincidence, Row 1 1 30); (fp_apd_a_detection, Row 1 1 30)].
Proof.
  split.
  - apply (C2_overflow_events true (set_first 1 PAT_init) 1 170); simpl; lia.
  - rewrite (proj2 (C2_overflow_events false (set_first 1 PAT_init) 1 230
                      ltac:(simpl; lia)) ltac:(lia)).
    reflexivity.
Defined.



Section ClassifierOrder.

Variable two_channel : bool.

(** C10.  While the flag is unset a sample other than 159 changes nothing
    and writes nothing, whatever its value; a payload without 159 is passed
    over as a whole; and in a payload whose first 159 is followed by [post],
    the rows written to each file and the additions to each counter are as
    many as the matching samples of [post] alone. *)
Theorem C10_before_first_marker (self : Photon_Arrival_Timings) (pc : Z) :
  first_wrap_around self = 0 ->
  (forall v, v <> 159 -> sample_step two_channel self pc v = (self, []))
  /\ (forall l, ~ In 159 l ->
        detection_and_timing_of_pulses two_channel self l pc = Some (self, []))
  /\ (forall pre post, ~ In 159 pre ->
        exists self' w,
          detection_and_timing_of_pulses two_channel self (pre ++ 159 :: post) pc
          = Some (self', w)
          /\ length (lines_of fp_apd_a_detection w)
             = count_samples (fun v => is_channel_a v || is_coincidence v) post
          /\ length (lines_of fp_apd_coincidence w)
             = count_samples is_coincidence post
          /\ length (lines_of fp_apd_b_detection w)
             = count_samples
                 (fun v => two_channel && (is_channel_b v || is_coincidence v)) post
          /\ apd_a_detection self'
             = apd_a_detection self
               + Z.of_nat (count_samples
                             (fun v => is_channel_a v || is_coincidence v) post)
          /\ coincidence_detection self'
             = coincidence_detection self
               + Z.of_nat (count_samples is_coincidence post)
          /\ apd_b_detection self'
             = apd_b_detection self
               + Z.of_nat (count_samples
                             (fun v => two_channel
                                       && (is_channel_b v || is_coincidence v))
                             post)).
Proof.
  intros Hf. split; [|split].
  - intros v Hv. apply sample_step_unset; assumption.
  - intros l Hl. rewrite detection_and_timing_of_pulses_total.
    rewrite classify_all_unset by assumption. reflexivity.
  - intros pre post Hpre. rewrite detection_and_timing_of_pulses_total.
    rewrite classify_all_app, classify_all_unset by assumption.
    simpl classify_all.
    rewrite sample_step_first by assumption.
    assert (Hf1 : first_wrap_around (set_wrap 0 (set_first 1 self)) <> 0)
      by (simpl; lia).
    pose proof (classify_all_counts two_channel _ pc post Hf1) as Hc.
    cbn zeta in Hc.
    destruct (classify_all two_channel (set_wrap 0 (set_first 1 self)) pc post)
      as [s2 w2].
    simpl in Hc. destruct Hc as (_ & Ha & Hc & Hb & Ea & Ec & Eb).
    exists s2, w2. simpl. repeat split; assumption.
Qed.


End ClassifierOrder.

Lemma C10_before_first_marker_witness :
  detection_and_timing_of_pulses true PAT_init [40; 100; 170; 70] 1
  = Some (PAT_init, []).
Proof.
  apply (C10_before_first_marker true PAT_init 1); [reflexivity|].
  simpl. intros H. repeat destruct H as [H|H]; try discriminate H; exact H.
Defined.



(** * Properties of the packet loop *)

Lemma read_chunk n d p :
  read n (mkFile d p) = (take n (drop p d), mkFile d (p + length (take n (drop p d)))).
Proof. reflexivity. Qed.

Lemma take_drop_length (n p : nat) (d : list Z) :
  length (take n (drop p d)) = Nat.min n (length d - p).
Proof. rewrite length_take, length_drop. reflexivity. Qed.

Ltac unfold_setters :=
  unfold set_self, set_fp_file, set_out, set_packet_header, set_packet_counter,
         set_difference, set_total_missed_packets,
         set_last, set_wrap, set_first, set_apd_a, set_apd_b, set_coincidence;
  cbn [self fp_file out packet_header packet_counter difference
       total_missed_packets apd_a_detection apd_b_detection
       coincidence_detection number_of_wrap_around first_wrap_around
       last_udp_packet_counter data position].

Section PacketLoopFacts.

Variable two_channel : bool.

(** The header loop, started at index [k] with [m] bytes to go: either the
    file has them, and they replace the entries [k .. k+m-1] of the list, or
    the file ends first and StopIteration is raised; only the file position
    and the header list are touched. *)
Lemma read_header_seq (m k : nat) s d p o h pc df tot :
  (k + m <= length h)%nat ->
  if decide (m <= length d - p)%nat
  then read_header (seq k m) (mkFrame s (mkFile d p) o h pc df tot)
       = Normal (mkFrame s (mkFile d (p + m)) o
                         (take k h ++ take m (drop p d) ++ drop (k + m) h)
                         pc df tot)
  else exists p' h',
       read_header (seq k m) (mkFrame s (mkFile d p) o h pc df tot)
       = Raised StopIteration (mkFrame s (mkFile d p') o h' pc df tot).
Proof.
  revert k p h. induction m as [|m IH]; intros k p h Hk.
  - destruct (decide _) as [_|Hn]; [|lia]. simpl.
    rewrite !Nat.add_0_r, take_drop. reflexivity.
  - cbn [seq read_header fp_file]. rewrite read_chunk.
    cbn [set_fp_file fp_file packet_header self out packet_counter difference
         total_missed_packets set_packet_header].
    destruct (d !! p) as [b|] eqn:Eb.
    + rewrite (drop_S _ _ _ Eb). simpl.
      destruct (Nat.ltb_spec k (length h)) as [_|?]; [|lia].
      unfold set_packet_header, set_fp_file. simpl.
      apply lookup_lt_Some in Eb.
      specialize (IH (S k) (p + 1)%nat (<[k:=b]> h)).
      rewrite length_insert in IH. specialize (IH ltac:(lia)).
      destruct (decide (S m <= length d - p)%nat) as [Hle|Hgt].
      * destruct (decide _) as [_|?] in IH; [|lia]. rewrite IH. f_equal. f_equal.
        -- f_equal; lia.
        -- rewrite (take_S_r _ _ b) by (apply list_lookup_insert_eq; lia).
           rewrite take_insert_ge by lia. rewrite <- app_assoc. simpl.
           rewrite drop_insert_lt by lia.
           replace (p + 1)%nat with (S p) by lia.
           replace (S (k + m))%nat with (k + S m)%nat by lia. reflexivity.
      * destruct (decide _) as [?|_] in IH; [lia|]. exact IH.
    + apply lookup_ge_None in Eb. rewrite drop_ge by lia. simpl.
      destruct (decide _) as [?|_]; [lia|]. eauto.
Qed.

Lemma read_header_full (fr : frame) :
  length (packet_header fr) = packet_header_size ->
  (position (fp_file fr) + packet_header_size <= length (data (fp_file fr)))%nat ->
  read_header (seq 0 packet_header_size) fr = Normal (after_header fr).
Proof.
  destruct fr as [s [d p] o h pc df tot].
  cbn [packet_header fp_file data position]. intros Hh Hp.
  pose proof (read_header_seq packet_header_size 0 s d p o h pc df tot) as H.
  destruct (decide _) as [_|?] in H; [|lia]. rewrite H by lia.
  unfold after_header, header_at, set_packet_header, set_fp_file.
  cbn [packet_header fp_file data position self out packet_counter difference
       total_missed_packets take app Nat.add].
  rewrite (drop_ge h) by lia. rewrite app_nil_r. reflexivity.
Qed.

Lemma read_header_short (fr : frame) :
  length (packet_header fr) = packet_header_size ->
  (length (data (fp_file fr)) < position (fp_file fr) + packet_header_size)%nat ->
  exists p' h',
    read_header (seq 0 packet_header_size) fr
    = Raised StopIteration
        (set_packet_header h' (set_fp_file (mkFile (data (fp_file fr)) p') fr)).
Proof.
  destruct fr as [s [d p] o h pc df tot].
  cbn [packet_header fp_file data position]. intros Hh Hp.
  pose proof (read_header_seq packet_header_size 0 s d p o h pc df tot) as H.
  assert (0 < packet_header_size)%nat by (unfold packet_header_size; lia).
  destruct (decide _) as [?|_] in H; [lia|]. apply H. lia.
Qed.

(** A header of 90 bytes has the bytes 32, 33 and 86..89. *)
Lemma header_fields (h : list Z) :
  length h = packet_header_size ->
  (exists pl, packet_length_of h = Some pl)
  /\ (exists cur, udp_packet_counter_of h = Some cur).
Proof.
  intros Hh. unfold packet_length_of, udp_packet_counter_of.
  assert (Hl : forall i, (i < 90)%nat -> exists b, h !! i = Some b).
  { intros i Hi. apply lookup_lt_is_Some. rewrite Hh.
    unfold packet_header_size. exact Hi. }
  destruct (Hl 32%nat ltac:(lia)) as [? ->].
  destruct (Hl 33%nat ltac:(lia)) as [? ->].
  destruct (Hl 86%nat ltac:(lia)) as [? ->].
  destruct (Hl 87%nat ltac:(lia)) as [? ->].
  destruct (Hl 88%nat ltac:(lia)) as [? ->].
  destruct (Hl 89%nat ltac:(lia)) as [? ->].
  split; eauto.
Qed.

Lemma header_at_length (f : file_obj) :
  (position f + packet_header_size <= length (data f))%nat ->
  length (header_at f) = packet_header_size.
Proof. intros H. unfold header_at. rewrite take_drop_length. lia. Qed.

(** Lines 52-60 in one equation. *)
Lemma account_packet_spec (fr : frame) (cur : Z) :
  udp_packet_counter_of (packet_header fr) = Some cur ->
  let last := last_udp_packet_counter (self fr) in
  let missed := missed_packets last cur in
  let d := match last with Some l => Some (cur - l) | None => difference fr end in
  account_packet fr
  = Normal
      (mkFrame
         (set_last (Some cur)
            (set_wrap (number_of_wrap_around (self fr) + missed * 1024) (self fr)))
         (fp_file fr)
         (out fr ++ [(fp_packet_counter,
                      Row (packet_counter fr) cur
                          (match d with Some x => x | None => 1 end))])
         (packet_header fr) (packet_counter fr) d
         (total_missed_packets fr + missed)).
Proof.
  intros Hc. unfold account_packet. rewrite Hc.
  destruct fr as [[a b c w fl last] f o h pc df tot]. simpl.
  destruct last as [l|]; simpl.
  - destruct (Z.eqb_spec (cur - l) 1) as [E|_]; simpl.
    + unfold_setters. repeat f_equal; lia.
    + reflexivity.
  - unfold_setters. repeat f_equal; lia.
Qed.

(** Lines 62-64 in one equation: the payload is what is left of the file,
    up to 1024 bytes, and each of its bytes is classified once. *)
Lemma read_payload_spec (fr : frame) :
  let f := fp_file fr in
  let payload := take sub_data_array_size (drop (position f) (data f)) in
  let r := classify_all two_channel (self fr) (packet_counter fr) payload in
  read_payload two_channel fr
  = Normal (mkFrame (fst r) (mkFile (data f) (position f + length payload))
                    (out fr ++ snd r) (packet_header fr) (packet_counter fr + 1)
                    (difference fr) (total_missed_packets fr)).
Proof.
  cbn zeta. unfold read_payload, read.
  cbn [set_fp_file self packet_counter].
  rewrite detection_and_timing_of_pulses_total.
  destruct (classify_all _ _ _ _) as [s1 w]. reflexivity.
Qed.

(** The inner loop against the scan the specification describes: if some
    chunk is the marker, the loop stops after reading the first such chunk
    and seeks 76 bytes back; otherwise it stops at the end of the file with
    StopIteration.  It touches the file position only. *)
Lemma resynchronize_spec (fuel : nat) s d p o h pc df tot :
  (length d - p < fuel)%nat -> (72 <= p)%nat ->
  match find_marker_chunk (drop p d) with
  | Some k =>
      resynchronize fuel (mkFrame s (mkFile d p) o h pc df tot)
      = Some (Normal (mkFrame s (mkFile d (p + 4 * k + 4 - 76)) o h pc df tot))
  | None =>
      exists p',
      resynchronize fuel (mkFrame s (mkFile d p) o h pc df tot)
      = Some (Raised StopIteration (mkFrame s (mkFile d p') o h pc df tot))
  end.
Proof.
  revert p. induction fuel as [|fuel IH]; intros p Hfuel Hp; [lia|].
  cbn [resynchronize fp_file]. rewrite read_chunk.
  cbn [set_fp_file fp_file self out packet_header packet_counter difference
       total_missed_packets].
  destruct (drop p d) as [|b0 rest] eqn:Ed.
  { simpl. eauto. }
  assert (Hlen : length (drop p d) = (length d - p)%nat) by apply length_drop.
  assert (Hnext : forall n, drop (p + n) d = drop n (drop p d))
    by (intros n; rewrite drop_drop; reflexivity).
  rewrite Ed in Hlen, Hnext.
  destruct rest as [|b1 [|b2 [|b3 rest]]].
  1-3: simpl;
       repeat (destruct (decide _) as [E|_]; [discriminate E|]);
       unfold set_fp_file; simpl;
       match goal with
       | |- context [mkFile _ (_ + ?n)] =>
           specialize (IH (p + n)%nat); rewrite (Hnext n) in IH
       end;
       simpl in Hlen, IH; apply IH; lia.
  change (take 4 (b0 :: b1 :: b2 :: b3 :: rest)) with [b0; b1; b2; b3].
  cbn [length find_marker_chunk].
  destruct (decide ([b0; b1; b2; b3] = marker)) as [E|NE].
  - unfold seek_cur. cbn [position data].
    destruct (Z.ltb_spec (Z.of_nat (p + 4) + -76) 0) as [?|_]; [lia|].
    unfold set_fp_file; simpl. do 4 f_equal. lia.
  - destruct (decide ([b0; b1; b2; b3] = [])) as [E|_]; [discriminate E|].
    specialize (IH (p + 4)%nat). rewrite (Hnext 4%nat) in IH.
    change (drop 4 (b0 :: b1 :: b2 :: b3 :: rest)) with rest in IH.
    simpl in Hlen. specialize (IH ltac:(lia) ltac:(lia)).
    unfold set_fp_file; cbn [self fp_file out packet_header packet_counter
                                  difference total_missed_packets].
    destruct (find_marker_chunk rest) as [k|]; cbn [option_map].
    + rewrite IH. do 4 f_equal. lia.
    + exact IH.
Qed.

(** One turn of the outer loop when the file ends within the header. *)
Lemma packet_iteration_eof (fr : frame) :
  length (packet_header fr) = packet_header_size ->
  (length (data (fp_file fr)) < position (fp_file fr) + packet_header_size)%nat ->
  exists p' h',
    packet_iteration two_channel fr
    = Some (Raised StopIteration
              (set_packet_header h'
                 (set_fp_file (mkFile (data (fp_file fr)) p') fr))).
Proof.
  intros Hh Hp. destruct (read_header_short fr Hh Hp) as (p' & h' & E).
  exists p', h'. unfold packet_iteration. rewrite E. reflexivity.
Qed.

(** One turn of the outer loop on a packet of declared length 1052. *)
Lemma packet_iteration_valid (fr : frame) (cur : Z) :
  length (packet_header fr) = packet_header_size ->
  (position (fp_file fr) + packet_header_size <= length (data (fp_file fr)))%nat ->
  packet_length_of (header_at (fp_file fr)) = Some 1052 ->
  udp_packet_counter_of (header_at (fp_file fr)) = Some cur ->
  let f := fp_file fr in
  let last := last_udp_packet_counter (self fr) in
  let missed := missed_packets last cur in
  let d := match last with Some l => Some (cur - l) | None => difference fr end in
  let payload :=
    take sub_data_array_size (drop (position f + packet_header_size) (data f)) in
  let r := classify_all two_channel
             (set_last (Some cur)
                (set_wrap (number_of_wrap_around (self fr) + missed * 1024) (self fr)))
             (packet_counter fr) payload in
  packet_iteration two_channel fr
  = Some (Normal
            (mkFrame (fst r)
               (mkFile (data f) (position f + packet_header_size + length payload))
               ((out fr ++ [(fp_packet_counter,
                             Row (packet_counter fr) cur
                                 (match d with Some x => x | None => 1 end))])
                ++ snd r)
               (header_at f) (packet_counter fr + 1) d
               (total_missed_packets fr + missed))).
Proof.
  intros Hh Hp Hl Hc. cbn zeta. unfold packet_iteration.
  rewrite (read_header_full fr Hh Hp).
  change (packet_header (after_header fr)) with (header_at (fp_file fr)).
  rewrite Hl. change (1052 =? 1052) with true. cbn iota.
  rewrite (account_packet_spec (after_header fr) cur Hc). cbn zeta.
  rewrite read_payload_spec. reflexivity.
Qed.

(** One turn of the outer loop on a packet of another declared length. *)
Lemma packet_iteration_resync (fr : frame) (pl : Z) :
  length (packet_header fr) = packet_header_size ->
  (position (fp_file fr) + packet_header_size <= length (data (fp_file fr)))%nat ->
  packet_length_of (header_at (fp_file fr)) = Some pl ->
  pl <> 1052 ->
  let f := fp_file fr in
  let p := (position f + packet_header_size)%nat in
  match find_marker_chunk (drop p (data f)) with
  | Some k =>
      packet_iteration two_channel fr
      = Some (Normal (set_fp_file (mkFile (data f) (p + 4 * k + 4 - 76))
                                  (after_header fr)))
  | None =>
      exists p',
      packet_iteration two_channel fr
      = Some (Raised StopIteration
                (set_fp_file (mkFile (data f) p') (after_header fr)))
  end.
Proof.
  intros Hh Hp Hl Hne. cbn zeta. unfold packet_iteration.
  rewrite (read_header_full fr Hh Hp).
  change (packet_header (after_header fr)) with (header_at (fp_file fr)).
  rewrite Hl. destruct (Z.eqb_spec pl 1052) as [?|_]; [contradiction|].
  destruct fr as [s [d p] o h pc df tot]. unfold after_header.
  unfold_setters.
  apply resynchronize_spec; unfold packet_header_size; lia.
Qed.

(** A turn of the outer loop either raises StopIteration or goes on with a
    header list of the same length, the same file and a read position that
    is further on; no other exception is raised and the inner loop has fuel
    enough. *)
Lemma packet_iteration_progress (fr : frame) :
  length (packet_header fr) = packet_header_size ->
  (exists fr', packet_iteration two_channel fr = Some (Raised StopIteration fr'))
  \/ (exists fr',
        packet_iteration two_channel fr = Some (Normal fr')
        /\ length (packet_header fr') = packet_header_size
        /\ data (fp_file fr') = data (fp_file fr)
        /\ (position (fp_file fr) < position (fp_file fr'))%nat
        /\ (position (fp_file fr) < length (data (fp_file fr)))%nat).
Proof.
  intros Hh.
  destruct (le_lt_dec (position (fp_file fr) + packet_header_size)
                      (length (data (fp_file fr)))) as [Hp|Hp].
  2: { left. destruct (packet_iteration_eof fr Hh Hp) as (p' & h' & E). eauto. }
  pose proof (header_at_length (fp_file fr) Hp) as Hlen.
  destruct (header_fields _ Hlen) as [[pl Hl] [cur Hc]].
  assert (H90 : packet_header_size = 90%nat) by reflexivity.
  destruct (Z.eq_dec pl 1052) as [->|Hne].
  - right. rewrite (packet_iteration_valid fr cur Hh Hp Hl Hc).
    eexists. split; [reflexivity|]. cbn [packet_header fp_file data position].
    repeat split; try assumption; lia.
  - pose proof (packet_iteration_resync fr pl Hh Hp Hl Hne) as H. cbn zeta in H.
    destruct (find_marker_chunk _) as [k|].
    + right. rewrite H. eexists. split; [reflexivity|].
      unfold after_header. unfold_setters.
      repeat split; try assumption; lia.
    + left. destruct H as [p' E]. eauto.
Qed.

(** The outer loop ends, and it ends with StopIteration. *)
Lemma packet_loop_total (fuel : nat) (fr : frame) :
  length (packet_header fr) = packet_header_size ->
  (length (data (fp_file fr)) - position (fp_file fr) < fuel)%nat ->
  exists fr', packet_loop two_channel fuel fr = Some (StopIteration, fr').
Proof.
  revert fr. induction fuel as [|fuel IH]; intros fr Hh Hfuel; [lia|].
  cbn [packet_loop].
  destruct (packet_iteration_progress fr Hh)
    as [[fr' E] | (fr' & E & Hh' & Hd & Hlt & Hin)]; rewrite E.
  - eauto.
  - apply IH; [assumption|]. rewrite Hd. lia.
Qed.

Lemma retrieve_from_log_file_total (self0 : Photon_Arrival_Timings) (file : list Z) :
  exists fr',
    packet_loop two_channel (S (length file)) (initial_frame self0 file)
    = Some (StopIteration, fr')
    /\ retrieve_from_log_file two_channel self0 file
       = Some (Returns (self fr') (out fr' ++ summary fr')).
Proof.
  destruct (packet_loop_total (S (length file)) (initial_frame self0 file))
    as [fr' E].
  - reflexivity.
  - cbn [initial_frame fp_file seek_set data position]. lia.
  - exists fr'. split; [exact E|].
    unfold retrieve_from_log_file. rewrite E. reflexivity.
Qed.

End PacketLoopFacts.

(** The scan of the specification finds the first chunk that is the
    marker, counting chunks of four bytes from the start. *)
Lemma find_marker_chunk_Some (l : list Z) (k : nat) :
  find_marker_chunk l = Some k ->
  take 4 (drop (4 * k) l) = marker
  /\ forall j, (j < k)%nat -> take 4 (drop (4 * j) l) <> marker.
Proof.
  revert l. induction k as [|k IH]; intros l H.
  - split; [|intros j Hj; lia].
    destruct l as [|b0 [|b1 [|b2 [|b3 rest]]]]; try discriminate H.
    simpl in H. destruct (decide _) as [E|_]; [exact E|].
    destruct (find_marker_chunk rest); discriminate H.
  - destruct l as [|b0 [|b1 [|b2 [|b3 rest]]]]; try discriminate H.
    simpl in H. destruct (decide _) as [E|NE]; [discriminate H|].
    destruct (find_marker_chunk rest) as [k'|] eqn:Er; [|discriminate H].
    injection H as ->. destruct (IH rest Er) as [Hk Hj].
    replace (4 * S k)%nat with (4 + 4 * k)%nat by lia.
    split; [exact Hk|]. intros [|j] Hlt; [exact NE|].
    replace (4 * S j)%nat with (4 + 4 * j)%nat by lia.
    apply Hj. lia.
Qed.

Lemma find_marker_chunk_None (l : list Z) :
  find_marker_chunk l = None ->
  forall j, take 4 (drop (4 * j) l) <> marker.
Proof.
  intros H j. revert l H. induction j as [|j IH]; intros l H.
  - destruct l as [|b0 [|b1 [|b2 [|b3 rest]]]]; try discriminate.
    simpl in H. destruct (decide _) as [E|NE]; [discriminate H|]. exact NE.
  - replace (4 * S j)%nat with (4 + 4 * j)%nat by lia.
    destruct l as [|b0 [|b1 [|b2 [|b3 rest]]]];
      try (rewrite drop_ge by (simpl; lia); discriminate).
    simpl in H. destruct (decide _) as [E|NE]; [discriminate H|].
    apply IH. destruct (find_marker_chunk rest); [discriminate H|reflexivity].
Qed.

Section PacketLoopClaims.

Variable two_channel : bool.

(** C3.  For a valid packet whose sequence counter is [delta] more than the
    last one seen, with [delta] other than 1, lines 52-60 add
    (delta-1)*1024 to [number_of_wrap_around], add delta-1 to
    [total_missed_packets] and write the accounting row with [delta]; the
    turn of the loop goes on to read and classify the payload and ends
    normally, nothing is raised.  Had the last counter been one less than the
    current one, counter and total would have been left as they are: after
    counters N and N+3 the row has 3, the total is 2 more and the wrap-around
    counter 2*1024 more. *)
Theorem C3_sequence_gap (fr : frame) (prev cur : Z) :
  length (packet_header fr) = packet_header_size ->
  (position (fp_file fr) + packet_header_size <= length (data (fp_file fr)))%nat ->
  packet_length_of (header_at (fp_file fr)) = Some 1052 ->
  udp_packet_counter_of (header_at (fp_file fr)) = Some cur ->
  last_udp_packet_counter (self fr) = Some prev ->
  cur - prev <> 1 ->
  let delta := cur - prev in
  let f := fp_file fr in
  let f1 := mkFile (data f) (position f + packet_header_size) in
  let w := number_of_wrap_around (self fr) in
  let row := (fp_packet_counter, Row (packet_counter fr) cur delta) in
  let payload :=
    take sub_data_array_size (drop (position f + packet_header_size) (data f)) in
  let r := classify_all two_channel
             (set_last (Some cur) (set_wrap (w + (delta - 1) * 1024) (self fr)))
             (packet_counter fr) payload in
  account_packet (after_header fr)
  = Normal (mkFrame
              (set_last (Some cur) (set_wrap (w + (delta - 1) * 1024) (self fr)))
              f1 (out fr ++ [row]) (header_at f) (packet_counter fr)
              (Some delta) (total_missed_packets fr + (delta - 1)))
  /\ packet_iteration two_channel fr
     = Some (Normal
               (mkFrame (fst r)
                  (mkFile (data f) (position f + packet_header_size + length payload))
                  ((out fr ++ [row]) ++ snd r) (header_at f)
                  (packet_counter fr + 1) (Some delta)
                  (total_missed_packets fr + (delta - 1))))
  /\ account_packet
       (after_header (set_self (set_last (Some (cur - 1)) (self fr)) fr))
     = Normal (mkFrame
                 (set_last (Some cur) (self fr))
                 f1 (out fr ++ [(fp_packet_counter, Row (packet_counter fr) cur 1)])
                 (header_at f) (packet_counter fr)
                 (Some 1) (total_missed_packets fr))
  /\ (delta = 3 ->
      number_of_wrap_around (set_wrap (w + (delta - 1) * 1024) (self fr))
      = number_of_wrap_around (self fr) + 2 * 1024
      /\ total_missed_packets fr + (delta - 1) = total_missed_packets fr + 2).
Proof.
  intros Hh Hp Hl Hc Hlast Hd. cbn zeta. repeat split.
  - rewrite (account_packet_spec (after_header fr) cur Hc). cbn zeta.
    unfold after_header. unfold_setters. rewrite Hlast.
    reflexivity.
  - rewrite (packet_iteration_valid two_channel fr cur Hh Hp Hl Hc).
    rewrite Hlast. reflexivity.
  - rewrite (account_packet_spec
               (after_header (set_self (set_last (Some (cur - 1)) (self fr)) fr))
               cur Hc).
    cbn zeta. unfold after_header. unfold_setters. unfold missed_packets.
    destruct fr as [[a b c w fl last] f o h pc df tot]. simpl.
    repeat f_equal; lia.
  - simpl. lia.
  - lia.
Qed.

(** C6.  A header that declares a length other than 1052 starts the scan
    for the marker, four bytes at a time from the end of the header.  If a
    chunk is the marker, the turn of the loop ends normally with the read
    position 76 bytes before the end of the first such chunk, which is
    beyond the start of the header just read, and the loop goes on from
    there; nothing but the file position and the header list has changed.
    If no chunk is the marker, the loop ends with StopIteration, nothing has
    been written or counted since the turn began, and the summary is
    written after the lines already there. *)
Theorem C6_resynchronization (fr : frame) (pl : Z) (fuel : nat) :
  length (packet_header fr) = packet_header_size ->
  (position (fp_file fr) + packet_header_size <= length (data (fp_file fr)))%nat ->
  packet_length_of (header_at (fp_file fr)) = Some pl ->
  pl <> 1052 ->
  let f := fp_file fr in
  let p := (position f + packet_header_size)%nat in
  match find_marker_chunk (drop p (data f)) with
  | Some k =>
      let fr1 := set_fp_file (mkFile (data f) (p + 4 * k + 4 - 76))
                             (after_header fr) in
      take 4 (drop (p + 4 * k) (data f)) = marker
      /\ (forall j, (j < k)%nat -> take 4 (drop (p + 4 * j) (data f)) <> marker)
      /\ packet_iteration two_channel fr = Some (Normal fr1)
      /\ packet_loop two_channel (S fuel) fr = packet_loop two_channel fuel fr1
      /\ (position f < position (fp_file fr1))%nat
  | None =>
      (forall j, take 4 (drop (p + 4 * j) (data f)) <> marker)
      /\ exists fr',
           packet_loop two_channel (S fuel) fr = Some (StopIteration, fr')
           /\ self fr' = self fr
           /\ out fr' = out fr
           /\ total_missed_packets fr' = total_missed_packets fr
           /\ finalize (packet_loop two_channel (S fuel) fr)
              = Some (Returns (self fr) (out fr ++ summary fr))
  end.
Proof.
  intros Hh Hp Hl Hne. cbn zeta.
  pose proof (packet_iteration_resync two_channel fr pl Hh Hp Hl Hne) as H.
  cbn zeta in H.
  destruct (find_marker_chunk _) as [k|] eqn:Ef.
  - destruct (find_marker_chunk_Some _ _ Ef) as [Hk Hj].
    rewrite !drop_drop in Hk. split; [exact Hk|]. split.
    { intros j Hlt. specialize (Hj j Hlt). rewrite drop_drop in Hj. exact Hj. }
    split; [exact H|]. split.
    + cbn [packet_loop]. rewrite H. reflexivity.
    + unfold after_header. unfold_setters. unfold packet_header_size. lia.
  - split.
    { intros j. pose proof (find_marker_chunk_None _ Ef j) as Hj.
      rewrite drop_drop in Hj. exact Hj. }
    destruct H as [p' E]. eexists. cbn [packet_loop]. rewrite E.
    split; [reflexivity|]. unfold after_header. unfold_setters.
    repeat split.
Qed.

(** C7.  A call of [retrieve_from_log_file] returns for every file and
    every decoder object: no IndexError, no OSError, and the loops end.  The
    classifier goes through the bytes of the list it is given, each once, and
    no index falls outside.  When fewer than 90 bytes are left at the start
    of a turn, the loop ends with StopIteration, with nothing written or
    counted in that turn.  When a valid header is followed by fewer than 1024
    bytes, those bytes are the payload: they are classified, the next turn
    ends the loop, and the output is the accounting row followed by the rows
    of those bytes. *)
Theorem C7_truncated_input :
  (forall self0 file,
     exists self' written,
       retrieve_from_log_file two_channel self0 file
       = Some (Returns self' written))
  /\ (forall self0 sub_data_array pc,
        detection_and_timing_of_pulses two_channel self0 sub_data_array pc
        = Some (classify_all two_channel self0 pc sub_data_array))
  /\ (forall fr fuel,
        length (packet_header fr) = packet_header_size ->
        (length (data (fp_file fr))
         < position (fp_file fr) + packet_header_size)%nat ->
        exists fr',
          packet_loop two_channel (S fuel) fr = Some (StopIteration, fr')
          /\ self fr' = self fr
          /\ out fr' = out fr
          /\ total_missed_packets fr' = total_missed_packets fr
          /\ finalize (packet_loop two_channel (S fuel) fr)
             = Some (Returns (self fr) (out fr ++ summary fr)))
  /\ (forall fr fuel cur,
        length (packet_header fr) = packet_header_size ->
        (position (fp_file fr) + packet_header_size
         <= length (data (fp_file fr)))%nat ->
        packet_length_of (header_at (fp_file fr)) = Some 1052 ->
        udp_packet_counter_of (header_at (fp_file fr)) = Some cur ->
        (length (data (fp_file fr))
         < position (fp_file fr) + packet_header_size + sub_data_array_size)%nat ->
        let f := fp_file fr in
        let last := last_udp_packet_counter (self fr) in
        let missed := missed_packets last cur in
        let d := match last with Some l => cur - l
                 | None => match difference fr with Some x => x | None => 1 end
                 end in
        let rest := drop (position f + packet_header_size) (data f) in
        let r := classify_all two_channel
                   (set_last (Some cur)
                      (set_wrap (number_of_wrap_around (self fr) + missed * 1024)
                                (self fr)))
                   (packet_counter fr) rest in
        exists fr',
          packet_loop two_channel (S (S fuel)) fr = Some (StopIteration, fr')
          /\ self fr' = fst r
          /\ out fr'
             = (out fr ++ [(fp_packet_counter, Row (packet_counter fr) cur d)])
               ++ snd r).
Proof.
  split; [|split; [|split]].
  - intros self0 file.
    destruct (retrieve_from_log_file_total two_channel self0 file) as (fr' & _ & E).
    eauto.
  - intros. apply detection_and_timing_of_pulses_total.
  - intros fr fuel Hh Hp.
    destruct (packet_iteration_eof two_channel fr Hh Hp) as (p' & h' & E).
    eexists. cbn [packet_loop]. rewrite E. unfold_setters. repeat split.
  - intros fr fuel cur Hh Hp Hl Hc Hshort. cbn zeta.
    cbn [packet_loop].
    rewrite (packet_iteration_valid two_channel fr cur Hh Hp Hl Hc).
    rewrite (take_ge (drop _ _)) by (rewrite length_drop; lia).
    match goal with
    | |- context [packet_iteration two_channel ?fr2] =>
        destruct (packet_iteration_eof two_channel fr2) as (p' & h' & E)
    end.
    + apply header_at_length. exact Hp.
    + cbn [fp_file data position]. rewrite length_drop.
      unfold packet_header_size. lia.
    + rewrite E. eexists. split; [reflexivity|]. unfold_setters.
      split; [reflexivity|]. destruct (last_udp_packet_counter (self fr));
        reflexivity.
Qed.

End PacketLoopClaims.

Lemma C3_sequence_gap_witness :
  exists fr',
    packet_iteration true sample_gap_frame = Some (Normal fr')
    /\ out fr' = [(fp_packet_counter, Row 2 8 3);
                  (fp_apd_a_detection, Row 2 1 327720)]
    /\ total_missed_packets fr' = 2
    /\ number_of_wrap_around (self fr') = 2048.
Proof.
  destruct (C3_sequence_gap true sample_gap_frame 5 8) as (_ & E & _).
  - reflexivity.
  - apply Nat.leb_le. reflexivity.
  - reflexivity.
  - reflexivity.
  - reflexivity.
  - discriminate.
  - eexists. split; [exact E|]. vm_compute. repeat split.
Defined.

Lemma C6_resynchronization_witness :
  packet_iteration true (initial_frame PAT_init sample_resync_file)
  = Some (Normal (set_fp_file (mkFile sample_resync_file 46)
                    (after_header (initial_frame PAT_init sample_resync_file))))
  /\ retrieve_from_log_file true PAT_init sample_lost_file
     = Some (Returns PAT_init
               [(fp_packet_counter, Total_missed_packets 0);
                (fp_packet_counter, Total_time_of_observation 0);
                (fp_packet_counter, Total_time_minus_missed 0)]).
Proof.
  split.
  - pose proof (C6_resynchronization true
                  (initial_frame PAT_init sample_resync_file) 0 0
                  eq_refl ltac:(apply Nat.leb_le; reflexivity) eq_refl
                  ltac:(discriminate)) as H.
    exact (proj1 (proj2 (proj2 H))).
  - pose proof (C6_resynchronization true
                  (initial_frame PAT_init sample_lost_file)
                  0 (length sample_lost_file)
                  eq_refl ltac:(apply Nat.leb_le; reflexivity) eq_refl
                  ltac:(discriminate)) as H.
    destruct H as (_ & fr' & _ & _ & _ & _ & E). exact E.
Defined.

Lemma C7_truncated_input_witness :
  retrieve_from_log_file true PAT_init [1; 2; 3]
  = Some (Returns PAT_init
            [(fp_packet_counter, Total_missed_packets 0);
             (fp_packet_counter, Total_time_of_observation 0);
             (fp_packet_counter, Total_time_minus_missed 0)])
  /\ exists fr',
       packet_loop true (S (length sample_short_file))
                   (initial_frame PAT_init sample_short_file)
       = Some (StopIteration, fr')
       /\ out fr' = [(fp_packet_counter, Row 1 7 1);
                     (fp_apd_a_detection, Row 1 1 40);
                     (fp_apd_coincidence, Row 1 1 20);
                     (fp_apd_a_detection, Row 1 2 20);
                     (fp_apd_b_detection, Row 1 1 20)].
Proof.
  destruct (C7_truncated_input true) as (_ & _ & Hhead & Hpay). split.
  - destruct (Hhead (initial_frame PAT_init [1; 2; 3]) 3%nat eq_refl
                    ltac:(apply Nat.ltb_lt; reflexivity))
      as (fr' & _ & _ & _ & _ & E).
    exact E.
  - destruct (Hpay (initial_frame PAT_init sample_short_file)
                   (pred (length sample_short_file)) 7
                   eq_refl ltac:(apply Nat.leb_le; reflexivity) eq_refl eq_refl
                   ltac:(apply Nat.ltb_lt; reflexivity))
      as (fr' & E & _ & Hout).
    exists fr'. split; [exact E|]. rewrite Hout. reflexivity.
Defined.

(** * Properties of the trace aggregator *)

Local Open Scope Q_scope.



















Local Close Scope Q_scope.

(** * Further properties of the sample classifier *)

Lemma Zrange_S (first : Z) (n : nat) :
  Zrange first (S n) = first :: Zrange (first + 1) n.
Proof.
  unfold Zrange. simpl. rewrite <- seq_shift, map_map. f_equal.
  - lia.
  - apply map_ext. intros i. lia.
Qed.

Section ClassifierMore.

Variable two_channel : bool.

(** X1.  In the two-channel decoder, after the first marker, a sample in
    64..95 adds one to [apd_b_detection] and writes one channel-B row
    stamped (v-64)*5 + number_of_wrap_around*160; a sample in 192..223 does
    the same with (v-192)*5 and the counter as it is before the sample, and
    leaves the wrap-around counter one higher. *)
Theorem X1_channel_b_events (self : Photon_Arrival_Timings) (pc v : Z) :
  first_wrap_around self <> 0 ->
  (64 <= v <= 95 ->
   sample_step true self pc v
   = (set_apd_b (apd_b_detection self + 1) self,
      [(fp_apd_b_detection,
        Row pc (apd_b_detection self + 1)
            ((v - 64) * 5 + number_of_wrap_around self * 160))]))
  /\
  (192 <= v <= 223 ->
   sample_step true self pc v
   = (mkPAT (apd_a_detection self) (apd_b_detection self + 1)
            (coincidence_detection self) (number_of_wrap_around self + 1)
            (first_wrap_around self) (last_udp_packet_counter self),
      [(fp_apd_b_detection,
        Row pc (apd_b_detection self + 1)
            ((v - 192) * 5 + number_of_wrap_around self * 160))])).
Proof.
  intros Hf. split; intros Hv; unfold_set_step Hf; split_tests; reflexivity.
Qed.

(** X2.  A sample below 32, from 128 to 158 or above 255 changes nothing
    and writes nothing, whether the flag is set or not; in the
    single-channel decoder the same holds for the channel-B ranges 64..95
    and 192..223, so that there a channel-B event in overflow form does not
    move the wrap-around counter. *)
Theorem X2_ignored_samples (self : Photon_Arrival_Timings) (pc v : Z) :
  v < 32 \/ 128 <= v < 159 \/ 255 < v
  \/ (two_channel = false /\ (64 <= v <= 95 \/ 192 <= v <= 223)) ->
  sample_step two_channel self pc v = (self, []).
Proof.
  intros Hv.
  destruct (Z.eq_dec (first_wrap_around self) 0) as [Hf|Hf].
  - apply sample_step_unset; [exact Hf | lia].
  - unfold_set_step Hf.
    destruct Hv as [Hv|[Hv|[Hv|[E Hv]]]]; split_tests;
      destruct two_channel; try discriminate E; reflexivity.
Qed.

(** What one sample does to the wrap-around counter once the flag is
    set. *)
Lemma sample_step_wrap (self : Photon_Arrival_Timings) (pc v : Z) :
  first_wrap_around self <> 0 ->
  number_of_wrap_around (fst (sample_step two_channel self pc v))
  = number_of_wrap_around self
    + (if advances_wrap two_channel v then 1 else 0).
Proof.
  intros Hf. unfold_set_step Hf. unfold advances_wrap.
  split_tests; destruct two_channel; cbn; lia.
Qed.

Lemma classify_all_wrap (self : Photon_Arrival_Timings) (pc : Z) (l : list Z) :
  first_wrap_around self <> 0 ->
  number_of_wrap_around (fst (classify_all two_channel self pc l))
  = number_of_wrap_around self
    + Z.of_nat (count_samples (advances_wrap two_channel) l).
Proof.
  revert self. induction l as [|v l IH]; intros self Hf.
  - simpl. unfold count_samples. simpl. lia.
  - rewrite count_samples_cons. simpl classify_all.
    pose proof (sample_step_wrap self pc v Hf) as Hw.
    pose proof (sample_step_counts two_channel self pc v Hf) as Hc.
    cbn zeta in Hc. destruct Hc as [Hf1 _].
    destruct (sample_step two_channel self pc v) as [s1 w1]. simpl in Hw, Hf1.
    specialize (IH s1 Hf1).
    destruct (classify_all two_channel s1 pc l) as [s2 w2]. simpl in IH |- *.
    rewrite IH, Hw. destruct (advances_wrap two_channel v); lia.
Qed.

(** X3.  After the first marker, the wrap-around counter after a payload is
    the counter before it plus the number of markers and tracked events in
    overflow form in the payload; it never goes back. *)
Theorem X3_wrap_around_count (self : Photon_Arrival_Timings) (pc : Z)
    (sub_data_array : list Z) :
  first_wrap_around self <> 0 ->
  exists self' w,
    detection_and_timing_of_pulses two_channel self sub_data_array pc
    = Some (self', w)
    /\ number_of_wrap_around self'
       = number_of_wrap_around self
         + Z.of_nat (count_samples (advances_wrap two_channel) sub_data_array)
    /\ number_of_wrap_around self <= number_of_wrap_around self'.
Proof.
  intros Hf. rewrite detection_and_timing_of_pulses_total.
  pose proof (classify_all_wrap self pc sub_data_array Hf) as H.
  destruct (classify_all two_channel self pc sub_data_array) as [s w].
  exists s, w. simpl in H. split; [reflexivity|]. split; [exact H | lia].
Qed.

(** What one sample writes to a detection file: nothing, with the counter
    of the file as it was, or one row that carries the packet counter and
    the counter of the file, which is then one more. *)
Lemma sample_step_rows (self : Photon_Arrival_Timings) (pc v : Z) (h : handle) :
  let r := sample_step two_channel self pc v in
  (lines_of h (snd r) = [] /\ counter_of h (fst r) = counter_of h self)
  \/ (exists t,
        lines_of h (snd r) = [Row pc (counter_of h self + 1) t]
        /\ counter_of h (fst r) = counter_of h self + 1).
Proof.
  cbn zeta.
  destruct (Z.eq_dec (first_wrap_around self) 0) as [Hf|Hf].
  - destruct (Z.eq_dec v 159) as [->|Hv].
    + rewrite sample_step_first by exact Hf. left. destruct h; split; reflexivity.
    + rewrite sample_step_unset by assumption. left. split; reflexivity.
  - unfold_set_step Hf.
    split_tests; destruct two_channel, h; cbn;
      first [ left; split; reflexivity | right; eexists; split; reflexivity ].
Qed.

Lemma classify_all_rows (self : Photon_Arrival_Timings) (pc : Z) (l : list Z)
    (h : handle) :
  let r := classify_all two_channel self pc l in
  let rows := lines_of h (snd r) in
  map col1 rows = Zrange (counter_of h self + 1) (length rows)
  /\ counter_of h (fst r) = counter_of h self + Z.of_nat (length rows)
  /\ Forall (fun ln => is_row ln = true /\ col0 ln = pc) rows.
Proof.
  cbn zeta. revert self. induction l as [|v l IH]; intros self.
  - simpl. repeat split; [lia | constructor].
  - simpl classify_all.
    pose proof (sample_step_rows self pc v h) as Hs. cbn zeta in Hs.
    destruct (sample_step two_channel self pc v) as [s1 w1]. simpl in Hs.
    specialize (IH s1).
    destruct (classify_all two_channel s1 pc l) as [s2 w2]. simpl in IH |- *.
    destruct IH as (IH1 & IH2 & IH3). rewrite lines_of_app.
    destruct Hs as [[E Ec] | (t & E & Ec)]; rewrite E.
    + simpl. rewrite <- Ec. repeat split; assumption.
    + cbn [app length map col1]. rewrite Zrange_S. rewrite Ec in IH1, IH2.
      split; [f_equal; exact IH1|]. split; [lia|].
      constructor; [split; reflexivity | exact IH3].
Qed.

(** X4.  The rows written to a detection file for one payload are numbered
    without gaps: their second column runs from the counter of that file
    plus one upwards in steps of one, the counter ends at the last number
    written, and every row carries the packet counter of the call in its
    first column.  Nothing is written to the packet-counter file. *)
Theorem X4_rows_numbered (self : Photon_Arrival_Timings) (pc : Z)
    (sub_data_array : list Z) :
  exists self' w,
    detection_and_timing_of_pulses two_channel self sub_data_array pc
    = Some (self', w)
    /\ (forall h,
          let rows := lines_of h w in
          map col1 rows = Zrange (counter_of h self + 1) (length rows)
          /\ counter_of h self' = counter_of h self + Z.of_nat (length rows)
          /\ Forall (fun ln => is_row ln = true /\ col0 ln = pc) rows)
    /\ lines_of fp_packet_counter w = [].
Proof.
  rewrite detection_and_timing_of_pulses_total.
  pose proof (classify_all_rows self pc sub_data_array) as H. cbn zeta in H.
  destruct (classify_all two_channel self pc sub_data_array) as [s w].
  exists s, w. split; [reflexivity|]. split; [exact H|].
  destruct (H fp_packet_counter) as (_ & Hc & _). simpl in Hc.
  destruct (lines_of fp_packet_counter w); [reflexivity | simpl in Hc; lia].
Qed.

(** X5.  After the first marker, every timestamp written for a payload is a
    multiple of 5 and lies between 160 times the wrap-around counter before
    the payload and 160 times the counter after it plus 155. *)
Theorem X5_timestamp_bounds (self : Photon_Arrival_Timings) (pc : Z)
    (sub_data_array : list Z) :
  first_wrap_around self <> 0 ->
  exists self' w,
    detection_and_timing_of_pulses two_channel self sub_data_array pc
    = Some (self', w)
    /\ Forall (fun t => number_of_wrap_around self * 160 <= t
                        /\ t <= number_of_wrap_around self' * 160 + 155
                        /\ (5 | t))
              (timestamps w).
Proof.
  intros Hf. rewrite detection_and_timing_of_pulses_total.
  assert (H : let r := classify_all two_channel self pc sub_data_array in
              number_of_wrap_around self <= number_of_wrap_around (fst r)
              /\ Forall (fun t => number_of_wrap_around self * 160 <= t
                                  /\ t <= number_of_wrap_around (fst r) * 160 + 155
                                  /\ (5 | t))
                        (timestamps (snd r))).
  { revert self Hf. induction sub_data_array as [|v l IH]; intros self Hf.
    - simpl. split; [lia | constructor].
    - cbn zeta. simpl classify_all.
      pose proof (sample_step_stamps two_channel self pc v Hf) as Hs.
      cbn zeta in Hs.
      destruct (sample_step two_channel self pc v) as [s1 w1]. simpl in Hs.
      destruct Hs as [Hf1 Hs]. specialize (IH s1 Hf1). cbn zeta in IH.
      destruct (classify_all two_channel s1 pc l) as [s2 w2]. simpl in IH |- *.
      destruct IH as [Hle IH]. rewrite timestamps_app.
      assert (Hw : number_of_wrap_around self <= number_of_wrap_around s1).
      { destruct (event_kind two_channel v) as [[base overflow]|].
        - destruct Hs as (_ & _ & ->). destruct overflow; lia.
        - destruct Hs as (_ & ->). destruct (v =? 159); lia. }
      split; [lia|]. apply Forall_app. split.
      + destruct (event_kind two_channel v) as [[base overflow]|].
        * destruct Hs as (Hoff & Hts & _).
          eapply Forall_impl; [exact Hts|]. intros t <-. simpl.
          split; [lia|]. split; [lia|].
          exists (v - base + number_of_wrap_around self * 32). lia.
        * destruct Hs as [-> _]. constructor.
      + eapply Forall_impl; [exact IH|]. intros t (H1 & H2 & H3).
        simpl. repeat split; try assumption; lia. }
  cbn zeta in H.
  destruct (classify_all two_channel self pc sub_data_array) as [s w].
  exists s, w. split; [reflexivity | exact (proj2 H)].
Qed.

(** The flag after a payload, for a decoder that starts with the flag
    unset. *)
Lemma classify_all_flag_unset (self : Photon_Arrival_Timings) (pc : Z) (l : list Z) :
  first_wrap_around self = 0 ->
  (first_wrap_around (fst (classify_all two_channel self pc l)) <> 0
   <-> In 159 l).
Proof.
  revert self. induction l as [|v l IH]; intros self Hf.
  - simpl. split; [lia | intros []].
  - simpl classify_all. destruct (Z.eq_dec v 159) as [->|Hv].
    + rewrite sample_step_first by exact Hf.
      pose proof (classify_all_counts two_channel
                    (set_wrap 0 (set_first 1 self)) pc l) as Hc.
      cbn zeta in Hc.
      destruct (classify_all two_channel (set_wrap 0 (set_first 1 self)) pc l)
        as [s2 w2].
      simpl in Hc |- *. split; [intros _; left; reflexivity|].
      intros _. apply Hc. lia.
    + rewrite sample_step_unset by assumption. specialize (IH self Hf).
      destruct (classify_all two_channel self pc l) as [s2 w2].
      simpl in IH |- *. rewrite IH. split; [intros H; right; exact H|].
      intros [E|H]; [congruence | exact H].
Qed.

(** X6.  The flag is set after a payload exactly when it was set before or
    the payload has a 159: it is never cleared, and nothing but a 159 sets
    it. *)
Theorem X6_flag_after_payload (self : Photon_Arrival_Timings) (pc : Z)
    (sub_data_array : list Z) :
  exists self' w,
    detection_and_timing_of_pulses two_channel self sub_data_array pc
    = Some (self', w)
    /\ (first_wrap_around self' <> 0
        <-> first_wrap_around self <> 0 \/ In 159 sub_data_array).
Proof.
  rewrite detection_and_timing_of_pulses_total.
  pose proof (classify_all_flag_unset self pc sub_data_array) as H0.
  pose proof (classify_all_counts two_channel self pc sub_data_array) as H1.
  cbn zeta in H1.
  destruct (classify_all two_channel self pc sub_data_array) as [s w].
  exists s, w. split; [reflexivity|]. simpl in H0, H1 |- *.
  destruct (Z.eq_dec (first_wrap_around self) 0) as [Hf|Hf].
  - rewrite (H0 Hf). split; [intros H; right; exact H|].
    intros [H|H]; [contradiction | exact H].
  - split; [intros _; left; exact Hf|]. intros _. apply H1. exact Hf.
Qed.

(** X7.  While the flag is unset, what the wrap-around counter holds does
    not matter to a payload that has a 159: the first marker overwrites it,
    and the decoder object and the rows written are the same for every
    value of the counter before the payload.  So the compensation for
    packets lost before the first marker is discarded. *)
Theorem X7_counter_before_first_marker (self : Photon_Arrival_Timings)
    (pc x : Z) (sub_data_array : list Z) :
  first_wrap_around self = 0 ->
  In 159 sub_data_array ->
  detection_and_timing_of_pulses two_channel (set_wrap x self) sub_data_array pc
  = detection_and_timing_of_pulses two_channel self sub_data_array pc.
Proof.
  intros Hf Hin. rewrite !detection_and_timing_of_pulses_total. f_equal.
  induction sub_data_array as [|v l IH]; [destruct Hin|].
  simpl classify_all. destruct (Z.eq_dec v 159) as [->|Hv].
  - rewrite !sample_step_first by (simpl; exact Hf). reflexivity.
  - rewrite !sample_step_unset by (simpl; assumption).
    destruct Hin as [E|Hin]; [congruence|]. rewrite (IH Hin). reflexivity.
Qed.

End ClassifierMore.

(** * Further properties of the packet loop *)

Section VariantsAgree.

(** One sample, in the two decoders: as long as it is not a channel-B event
    in overflow form, they differ in the channel-B counter and the channel-B
    rows only. *)
Lemma sample_step_variants (s : Photon_Arrival_Timings) (b0 pc v : Z) :
  ~ 192 <= v <= 223 ->
  let r2 := sample_step true s pc v in
  let r1 := sample_step false (set_apd_b b0 s) pc v in
  fst r1 = set_apd_b b0 (fst r2)
  /\ lines_of fp_apd_a_detection (snd r1) = lines_of fp_apd_a_detection (snd r2)
  /\ lines_of fp_apd_coincidence (snd r1) = lines_of fp_apd_coincidence (snd r2)
  /\ lines_of fp_apd_b_detection (snd r1) = [].
Proof.
  intros Hv. cbn zeta.
  destruct (Z.eq_dec (first_wrap_around s) 0) as [Hf|Hf].
  - destruct (Z.eq_dec v 159) as [->|Hn].
    + rewrite !sample_step_first by (simpl; exact Hf). repeat split.
    + rewrite !sample_step_unset by (simpl; assumption). repeat split.
  - unfold sample_step. rewrite !first_marker_set by (simpl; exact Hf).
    unfold classify_sample, stamp. cbn [first_wrap_around set_apd_b].
    destruct (Z.eqb_spec (first_wrap_around s) 0) as [?|_]; [contradiction|].
    split_tests; cbn; repeat split.
Qed.

(** X8.  On a payload without channel-B events in overflow form (192..223)
    the single-channel decoder writes the same channel-A and coincidence
    rows as the two-channel decoder and ends with the same decoder object,
    but for the channel-B counter, which it leaves alone; it writes no
    channel-B row. *)
Theorem X8_variants_agree (self : Photon_Arrival_Timings) (pc : Z)
    (sub_data_array : list Z) :
  (forall v, In v sub_data_array -> ~ 192 <= v <= 223) ->
  exists s2 w2 s1 w1,
    detection_and_timing_of_pulses true self sub_data_array pc = Some (s2, w2)
    /\ detection_and_timing_of_pulses false self sub_data_array pc = Some (s1, w1)
    /\ s1 = set_apd_b (apd_b_detection self) s2
    /\ lines_of fp_apd_a_detection w1 = lines_of fp_apd_a_detection w2
    /\ lines_of fp_apd_coincidence w1 = lines_of fp_apd_coincidence w2
    /\ lines_of fp_apd_b_detection w1 = [].
Proof.
  intros Hl. rewrite !detection_and_timing_of_pulses_total.
  assert (H : forall s b0,
            let r2 := classify_all true s pc sub_data_array in
            let r1 := classify_all false (set_apd_b b0 s) pc sub_data_array in
            fst r1 = set_apd_b b0 (fst r2)
            /\ lines_of fp_apd_a_detection (snd r1)
               = lines_of fp_apd_a_detection (snd r2)
            /\ lines_of fp_apd_coincidence (snd r1)
               = lines_of fp_apd_coincidence (snd r2)
            /\ lines_of fp_apd_b_detection (snd r1) = []).
  { induction sub_data_array as [|v l IH]; intros s b0; cbn zeta.
    - simpl. repeat split.
    - simpl classify_all.
      pose proof (sample_step_variants s b0 pc v
                    (Hl v (or_introl eq_refl))) as Hs.
      cbn zeta in Hs.
      destruct (sample_step true s pc v) as [t2 u2].
      destruct (sample_step false (set_apd_b b0 s) pc v) as [t1 u1].
      simpl in Hs. destruct Hs as (-> & Ha & Hc & Hb).
      specialize (IH (fun x Hx => Hl x (or_intror Hx)) t2 b0). cbn zeta in IH.
      destruct (classify_all true t2 pc l) as [t2' u2'].
      destruct (classify_all false (set_apd_b b0 t2) pc l) as [t1' u1'].
      simpl in IH |- *. destruct IH as (-> & Ha' & Hc' & Hb').
      rewrite !lines_of_app, Ha, Ha', Hc, Hc', Hb, Hb'. repeat split. }
  specialize (H self (apd_b_detection self)). cbn zeta in H.
  replace (set_apd_b (apd_b_detection self) self) with self in H
    by (destruct self; reflexivity).
  destruct (classify_all true self pc sub_data_array) as [s2 w2].
  destruct (classify_all false self pc sub_data_array) as [s1 w1].
  exists s2, w2, s1, w1. simpl in H. tauto.
Qed.

End VariantsAgree.

Section PacketLoopMore.

Variable two_channel : bool.

(** A turn of the outer loop does one of three things: it ends the loop
    with StopIteration, it moves the read position after a damaged header,
    or it decodes one packet; only the last changes what the loop carries. *)
Lemma packet_iteration_cases (fr : frame) :
  length (packet_header fr) = packet_header_size ->
  (exists fr',
     packet_iteration two_channel fr = Some (Raised StopIteration fr')
     /\ progress_of fr' = progress_of fr)
  \/ (exists fr',
        packet_iteration two_channel fr = Some (Normal fr')
        /\ progress_of fr' = progress_of fr
        /\ length (packet_header fr') = packet_header_size)
  \/ (exists fr' pkt,
        packet_iteration two_channel fr = Some (Normal fr')
        /\ progress_of fr' = decode_packet two_channel (progress_of fr) pkt
        /\ length (packet_header fr') = packet_header_size).
Proof.
  intros Hh.
  destruct (le_lt_dec (position (fp_file fr) + packet_header_size)
                      (length (data (fp_file fr)))) as [Hp|Hp].
  2: { left. destruct (packet_iteration_eof two_channel fr Hh Hp) as (p' & h' & E).
       eexists. split; [exact E | reflexivity]. }
  pose proof (header_at_length (fp_file fr) Hp) as Hlen.
  destruct (header_fields _ Hlen) as [[pl Hl] [cur Hc]].
  destruct (Z.eq_dec pl 1052) as [->|Hne].
  - right. right.
    rewrite (packet_iteration_valid two_channel fr cur Hh Hp Hl Hc).
    set (payload := take sub_data_array_size _).
    eexists. exists (cur, payload). split; [reflexivity|].
    split; [|exact Hlen].
    unfold progress_of, decode_packet.
    cbn [self out packet_counter difference total_missed_packets
         dec written pkt_no last_delta missed fst snd].
    reflexivity.
  - pose proof (packet_iteration_resync two_channel fr pl Hh Hp Hl Hne) as H.
    cbn zeta in H. destruct (find_marker_chunk _) as [k|].
    + right. left. eexists. split; [exact H|].
      split; [reflexivity | exact Hlen].
    + left. destruct H as [p' E]. eexists. split; [exact E | reflexivity].
Qed.

Lemma packet_loop_S (fuel : nat) (fr : frame) :
  packet_loop two_channel (S fuel) fr
  = match packet_iteration two_channel fr with
    | None => None
    | Some (Raised e fr1) => Some (e, fr1)
    | Some (Normal fr1) => packet_loop two_channel fuel fr1
    end.
Proof. reflexivity. Qed.

(** The loop as a whole decodes a sequence of packets, one after the
    other. *)
Lemma packet_loop_decodes (fuel : nat) (fr : frame) (e : exn) (fr' : frame) :
  length (packet_header fr) = packet_header_size ->
  packet_loop two_channel fuel fr = Some (e, fr') ->
  e = StopIteration
  /\ exists pkts,
       progress_of fr' = decode_packets two_channel pkts (progress_of fr).
Proof.
  revert fr. induction fuel as [|fuel IH]; intros fr Hh H; [discriminate H|].
  rewrite packet_loop_S in H.
  destruct (packet_iteration_cases fr Hh)
    as [(fr1 & E & Hp) | [(fr1 & E & Hp & Hh1) | (fr1 & pkt & E & Hp & Hh1)]];
    rewrite E in H.
  - injection H as <- <-. split; [reflexivity|]. exists []. exact Hp.
  - destruct (IH fr1 Hh1 H) as [He [pkts Hk]]. split; [exact He|].
    exists pkts. rewrite Hk, Hp. reflexivity.
  - destruct (IH fr1 Hh1 H) as [He [pkts Hk]]. split; [exact He|].
    exists (pkt :: pkts). rewrite Hk, Hp. reflexivity.
Qed.

Lemma retrieve_decodes (self0 : Photon_Arrival_Timings) (file : list Z) :
  exists pkts,
    let st := decode_packets two_channel pkts (start self0) in
    retrieve_from_log_file two_channel self0 file
    = Some (Returns (dec st) (written st ++ summary_of st)).
Proof.
  destruct (retrieve_from_log_file_total two_channel self0 file) as (fr' & E & R).
  assert (Hh : length (packet_header (initial_frame self0 file))
               = packet_header_size) by reflexivity.
  destruct (packet_loop_decodes _ _ _ _ Hh E) as [_ [pkts Hk]].
  exists pkts. cbn zeta. rewrite R.
  assert (Hs : start self0 = progress_of (initial_frame self0 file))
    by reflexivity.
  rewrite Hs, <- Hk. reflexivity.
Qed.

End PacketLoopMore.

(** * The output files of a whole capture file *)

Lemma Zrange_app (first : Z) (n m : nat) :
  Zrange first (n + m) = Zrange first n ++ Zrange (first + Z.of_nat n) m.
Proof.
  revert first. induction n as [|n IH]; intros first.
  - simpl. f_equal. lia.
  - change (S n + m)%nat with (S (n + m)). rewrite !Zrange_S, IH.
    simpl. do 3 f_equal. lia.
Qed.

Lemma sum_Z_app (l1 l2 : list Z) : sum_Z (l1 ++ l2) = sum_Z l1 + sum_Z l2.
Proof. induction l1 as [|x l1 IH]; simpl; [reflexivity | rewrite IH; lia]. Qed.

Lemma last_default {A : Type} (l : list A) (d d' : A) :
  l <> [] -> List.last l d = List.last l d'.
Proof.
  induction l as [|x [|y l] IH]; intros H; [contradiction | reflexivity |].
  change (List.last (y :: l) d = List.last (y :: l) d'). apply IH. discriminate.
Qed.

Section WholeFile.

Variable two_channel : bool.

(** The classifier does not touch the last sequence counter. *)
Lemma sample_step_last (s : Photon_Arrival_Timings) (pc v : Z) :
  last_udp_packet_counter (fst (sample_step two_channel s pc v))
  = last_udp_packet_counter s.
Proof.
  destruct (Z.eq_dec (first_wrap_around s) 0) as [Hf|Hf].
  - destruct (Z.eq_dec v 159) as [->|Hv].
    + rewrite sample_step_first by exact Hf. reflexivity.
    + rewrite sample_step_unset by assumption. reflexivity.
  - unfold_set_step Hf. split_tests; destruct two_channel; reflexivity.
Qed.

Lemma classify_all_last (s : Photon_Arrival_Timings) (pc : Z) (l : list Z) :
  last_udp_packet_counter (fst (classify_all two_channel s pc l))
  = last_udp_packet_counter s.
Proof.
  revert s. induction l as [|v l IH]; intros s; [reflexivity|].
  simpl classify_all. pose proof (sample_step_last s pc v) as Hs.
  destruct (sample_step two_channel s pc v) as [s1 w1]. simpl in Hs.
  specialize (IH s1). destruct (classify_all two_channel s1 pc l) as [s2 w2].
  simpl in IH |- *. congruence.
Qed.

(** One packet: what it adds to each file and how it leaves what the loop
    carries. *)
Lemma decode_packet_facts (st : progress) (pkt : Z * list Z) :
  let st' := decode_packet two_channel st pkt in
  pkt_no st' = pkt_no st + 1
  /\ last_udp_packet_counter (dec st') = Some (fst pkt)
  /\ lines_of fp_packet_counter (written st')
     = lines_of fp_packet_counter (written st)
       ++ [Row (pkt_no st) (fst pkt) (delta_of st (fst pkt))]
  /\ missed st'
     = missed st + missed_packets (last_udp_packet_counter (dec st)) (fst pkt)
  /\ (first_wrap_around (dec st) <> 0 -> first_wrap_around (dec st') <> 0)
  /\ (forall h, h <> fp_packet_counter ->
        exists rows,
          lines_of h (written st') = lines_of h (written st) ++ rows
          /\ map col1 rows = Zrange (counter_of h (dec st) + 1) (length rows)
          /\ counter_of h (dec st')
             = counter_of h (dec st) + Z.of_nat (length rows)
          /\ Forall (fun ln => is_row ln = true /\ col0 ln = pkt_no st) rows).
Proof.
  cbn zeta. unfold decode_packet. cbn [dec written pkt_no last_delta missed].
  set (s0 := set_last _ _).
  pose proof (classify_all_last s0 (pkt_no st) (snd pkt)) as Hl.
  pose proof (classify_all_rows two_channel s0 (pkt_no st) (snd pkt)) as Hr.
  pose proof (classify_all_counts two_channel s0 (pkt_no st) (snd pkt)) as Hc.
  cbn zeta in Hr, Hc.
  destruct (classify_all two_channel s0 (pkt_no st) (snd pkt)) as [s1 w1].
  simpl fst in *. simpl snd in *.
  split; [reflexivity|]. split; [rewrite Hl; reflexivity|]. split.
  { rewrite !lines_of_app.
    destruct (Hr fp_packet_counter) as (_ & Hn & _). simpl in Hn.
    destruct (lines_of fp_packet_counter w1); [|simpl in Hn; lia].
    rewrite app_nil_r. unfold delta_of.
    destruct (last_udp_packet_counter (dec st)); reflexivity. }
  split; [reflexivity|]. split.
  { intros Hf. apply Hc. exact Hf. }
  intros h Hh. exists (lines_of h w1). destruct (Hr h) as (H1 & H2 & H3).
  split.
  { rewrite !lines_of_app. destruct h; try contradiction; simpl; 
      rewrite app_nil_r; reflexivity. }
  destruct h; try contradiction; (split; [exact H1|]; split; [exact H2|exact H3]).
Qed.

(** The packet-counter file after a sequence of packets. *)
Lemma decode_packets_accounting (pkts : list (Z * list Z)) (st : progress) :
  (last_udp_packet_counter (dec st) = None -> last_delta st = None) ->
  let st' := decode_packets two_channel pkts st in
  exists rows,
    lines_of fp_packet_counter (written st')
    = lines_of fp_packet_counter (written st) ++ rows
    /\ Forall (fun ln => is_row ln = true) rows
    /\ map col0 rows = Zrange (pkt_no st) (length rows)
    /\ map col1 rows = map fst pkts
    /\ missed st' = missed st + sum_Z (map (fun ln => col2 ln - 1) rows)
    /\ last_udp_packet_counter (dec st')
       = List.last (map (fun ln => Some (col1 ln)) rows)
                   (last_udp_packet_counter (dec st))
    /\ (forall prev,
          last_udp_packet_counter (dec st) = Some prev ->
          sum_Z (map (fun ln => col2 ln - 1) rows)
          = List.last (map col1 rows) prev - prev - Z.of_nat (length rows)).
Proof.
  revert st. induction pkts as [|pkt pkts IH]; intros st Hinv; cbn zeta.
  - exists []. rewrite app_nil_r. simpl. repeat split; try constructor; try lia.
  - change (decode_packets two_channel (pkt :: pkts) st)
      with (decode_packets two_channel pkts (decode_packet two_channel st pkt)).
    destruct (decode_packet_facts st pkt) as (Hn & Hl & Hw & Hm & _ & _).
    set (st1 := decode_packet two_channel st pkt) in *.
    destruct (IH st1) as (rows & Ew & Er & E0 & E1 & Em & El & Et).
    { intros E. rewrite Hl in E. discriminate E. }
    exists (Row (pkt_no st) (fst pkt) (delta_of st (fst pkt)) :: rows).
    split. { rewrite Ew, Hw, <- app_assoc. reflexivity. }
    split. { constructor; [reflexivity | exact Er]. }
    split. { cbn [map col0 length]. rewrite Zrange_S, E0, Hn. reflexivity. }
    split. { cbn [map col1]. rewrite E1. reflexivity. }
    assert (Hd : missed_packets (last_udp_packet_counter (dec st)) (fst pkt)
                 = delta_of st (fst pkt) - 1).
    { unfold missed_packets, delta_of.
      destruct (last_udp_packet_counter (dec st)) as [l|]; [lia|].
      rewrite (Hinv eq_refl). reflexivity. }
    split. { cbn [map col2 sum_Z fold_right]. fold (sum_Z (map (fun ln => col2 ln - 1) rows)).
             rewrite Em, Hm, Hd. lia. }
    split.
    { rewrite El, Hl. destruct rows as [|r rows]; [reflexivity|].
      change (List.last (map (fun ln => Some (col1 ln))
                (Row (pkt_no st) (fst pkt) (delta_of st (fst pkt)) :: r :: rows))
                (last_udp_packet_counter (dec st)))
        with (List.last (map (fun ln => Some (col1 ln)) (r :: rows))
                (last_udp_packet_counter (dec st))).
      apply last_default. discriminate. }
    intros prev Hp. cbn [map col1 col2 sum_Z fold_right length].
    fold (sum_Z (map (fun ln => col2 ln - 1) rows)).
    rewrite (Et (fst pkt) Hl). unfold delta_of. rewrite Hp.
    destruct rows as [|r rows]; [simpl; lia|].
    change (List.last (fst pkt :: map col1 (r :: rows)) prev)
      with (List.last (map col1 (r :: rows)) prev).
    rewrite (last_default _ prev (fst pkt)) by discriminate.
    rewrite Nat2Z.inj_succ. lia.
Qed.

(** A detection file after a sequence of packets. *)
Lemma decode_packets_rows (pkts : list (Z * list Z)) (st : progress) (h : handle) :
  h <> fp_packet_counter ->
  let st' := decode_packets two_channel pkts st in
  exists rows,
    lines_of h (written st') = lines_of h (written st) ++ rows
    /\ map col1 rows = Zrange (counter_of h (dec st) + 1) (length rows)
    /\ counter_of h (dec st') = counter_of h (dec st) + Z.of_nat (length rows)
    /\ Forall (fun ln => is_row ln = true) rows
    /\ Sorted Z.le (map col0 rows)
    /\ Forall (fun c => pkt_no st <= c < pkt_no st') (map col0 rows)
    /\ pkt_no st' = pkt_no st + Z.of_nat (length pkts).
Proof.
  intros Hh. revert st. induction pkts as [|pkt pkts IH]; intros st; cbn zeta.
  - exists []. rewrite app_nil_r. simpl.
    repeat split; try constructor; lia.
  - change (decode_packets two_channel (pkt :: pkts) st)
      with (decode_packets two_channel pkts (decode_packet two_channel st pkt)).
    destruct (decode_packet_facts st pkt) as (Hn & _ & _ & _ & _ & Hr).
    destruct (Hr h Hh) as (rows1 & Ew1 & E11 & Ec1 & Ef1).
    set (st1 := decode_packet two_channel st pkt) in *.
    destruct (IH st1) as (rows & Ew & E1 & Ec & Er & Es & Eb & Ep).
    exists (rows1 ++ rows).
    split. { rewrite Ew, Ew1, <- app_assoc. reflexivity. }
    split. { rewrite map_app, length_app, Zrange_app, E11, E1, Ec1.
             do 2 f_equal. lia. }
    split. { rewrite Ec, Ec1, length_app. lia. }
    split. { apply Forall_app. split; [|exact Er].
             eapply Forall_impl; [exact Ef1|]. intros ln [H _]. exact H. }
    assert (H1 : Forall (eq (pkt_no st)) (map col0 rows1)).
    { apply Forall_map. eapply Forall_impl; [exact Ef1|].
      intros ln [_ H]. simpl. symmetry. exact H. }
    assert (H2 : Forall (Z.le (pkt_no st)) (map col0 rows)).
    { eapply Forall_impl; [exact Eb|]. intros c Hc. simpl in Hc. lia. }
    destruct (sorted_same_app _ _ _ H1 Es H2) as [Hs _].
    rewrite map_app. split; [exact Hs|]. split.
    { apply Forall_app. split.
      - eapply Forall_impl; [exact H1|]. intros c <-. simpl. 
        rewrite Ep, Hn. lia.
      - eapply Forall_impl; [exact Eb|]. intros c Hc. simpl in Hc |- *. lia. }
    rewrite Ep, Hn. cbn [length]. lia.
Qed.

Lemma decode_packets_flag (pkts : list (Z * list Z)) (st : progress) :
  first_wrap_around (dec st) <> 0 ->
  first_wrap_around (dec (decode_packets two_channel pkts st)) <> 0.
Proof.
  revert st. induction pkts as [|pkt pkts IH]; intros st Hf; [exact Hf|].
  change (decode_packets two_channel (pkt :: pkts) st)
    with (decode_packets two_channel pkts (decode_packet two_channel st pkt)).
  apply IH. destruct (decode_packet_facts st pkt) as (_ & _ & _ & _ & H & _).
  apply H. exact Hf.
Qed.

End WholeFile.

Lemma last_map_Some {A : Type} (l : list A) (d : A) :
  List.last (map Some l) (Some d) = Some (List.last l d).
Proof.
  induction l as [|x [|y l] IH]; [reflexivity | reflexivity |].
  change (List.last (map Some (y :: l)) (Some d) = Some (List.last (y :: l) d)).
  exact IH.
Qed.

Section WholeFileClaims.

Variable two_channel : bool.

(** What a call of [retrieve_from_log_file] returns, file by file: the rows
    of the packet-counter file, then the summary; the rows of each detection
    file. *)
Lemma retrieve_facts (self0 : Photon_Arrival_Timings) (file : list Z) :
  exists self' w rows m,
    retrieve_from_log_file two_channel self0 file = Some (Returns self' w)
    /\ lines_of fp_packet_counter w
       = rows ++ [Total_missed_packets m;
                  Total_time_of_observation (number_of_wrap_around self' * 160);
                  Total_time_minus_missed
                    ((number_of_wrap_around self' - m * 1024) * 160)]
    /\ Forall (fun ln => is_row ln = true) rows
    /\ map col0 rows = Zrange 1 (length rows)
    /\ m = sum_Z (map (fun ln => col2 ln - 1) rows)
    /\ last_udp_packet_counter self'
       = List.last (map (fun ln => Some (col1 ln)) rows)
                   (last_udp_packet_counter self0)
    /\ (forall prev,
          last_udp_packet_counter self0 = Some prev ->
          m = List.last (map col1 rows) prev - prev - Z.of_nat (length rows))
    /\ (first_wrap_around self0 <> 0 -> first_wrap_around self' <> 0)
    /\ (forall h, h <> fp_packet_counter ->
          let hrows := lines_of h w in
          Forall (fun ln => is_row ln = true) hrows
          /\ map col1 hrows = Zrange (counter_of h self0 + 1) (length hrows)
          /\ counter_of h self' = counter_of h self0 + Z.of_nat (length hrows)
          /\ Sorted Z.le (map col0 hrows)
          /\ Forall (fun c => 1 <= c <= Z.of_nat (length rows)) (map col0 hrows)).
Proof.
  destruct (retrieve_decodes two_channel self0 file) as [pkts E]. cbn zeta in E.
  set (st := decode_packets two_channel pkts (start self0)) in *.
  destruct (decode_packets_accounting two_channel pkts (start self0))
    as (rows & Ew & Er & E0 & E1 & Em & El & Et); [reflexivity|].
  fold st in Ew, Em, El.
  exists (dec st), (written st ++ summary_of st), rows, (missed st).
  split; [exact E|]. split.
  { rewrite lines_of_app, Ew. reflexivity. }
  split; [exact Er|]. split; [exact E0|]. split; [rewrite Em; reflexivity|].
  split; [exact El|]. split.
  { intros prev Hp. rewrite Em. simpl. apply Et. exact Hp. }
  split. { intros Hf. apply decode_packets_flag. exact Hf. }
  intros h Hh. cbn zeta.
  destruct (decode_packets_rows two_channel pkts (start self0) h Hh)
    as (hrows & Hw & H1 & Hc & Hr & Hs & Hb & Hp).
  fold st in Hw, Hc, Hb, Hp.
  assert (Hl : lines_of h (written st ++ summary_of st) = hrows).
  { rewrite lines_of_app, Hw.
    destruct h; try contradiction; cbn; apply app_nil_r. }
  rewrite Hl. split; [exact Hr|]. split; [exact H1|]. split; [exact Hc|].
  split; [exact Hs|].
  assert (Hn : length rows = length pkts).
  { rewrite <- (length_map col1 rows), E1, length_map. reflexivity. }
  eapply Forall_impl; [exact Hb|]. intros c Hcb. simpl in Hcb |- *.
  rewrite Hp in Hcb. rewrite Hn. simpl in Hcb. lia.
Qed.

(** X9.  For every file and every decoder object the packet-counter file is
    a sequence of rows followed by the three lines of the summary; the rows
    are numbered 1, 2, ... in their first column; the total of missed
    packets is the sum over the rows of the third column minus one; the two
    times of the summary are 160 times the wrap-around counter at the end and
    160 times that counter less 1024 per missed packet; and the decoder object
    keeps the sequence counter of the last row, or the one it had when there
    is no row. *)
Theorem X9_packet_counter_file (self0 : Photon_Arrival_Timings) (file : list Z) :
  exists self' w rows m,
    retrieve_from_log_file two_channel self0 file = Some (Returns self' w)
    /\ lines_of fp_packet_counter w
       = rows ++ [Total_missed_packets m;
                  Total_time_of_observation (number_of_wrap_around self' * 160);
                  Total_time_minus_missed
                    ((number_of_wrap_around self' - m * 1024) * 160)]
    /\ Forall (fun ln => is_row ln = true) rows
    /\ map col0 rows = Zrange 1 (length rows)
    /\ m = sum_Z (map (fun ln => col2 ln - 1) rows)
    /\ last_udp_packet_counter self'
       = List.last (map (fun ln => Some (col1 ln)) rows)
                   (last_udp_packet_counter self0).
Proof.
  destruct (retrieve_facts self0 file)
    as (self' & w & rows & m & E & Hw & Hr & H0 & Hm & Hl & _).
  exists self', w, rows, m. repeat split; assumption.
Qed.

(** X10.  When the decoder object comes with a last sequence counter, the
    total of missed packets that the summary of a file reports is the
    sequence counter at the end of the file, less the one at its start, less
    the number of rows of the packet-counter file. *)
Theorem X10_missed_packets_total (self0 : Photon_Arrival_Timings) (file : list Z)
    (prev : Z) :
  last_udp_packet_counter self0 = Some prev ->
  exists self' w rows m q,
    retrieve_from_log_file two_channel self0 file = Some (Returns self' w)
    /\ lines_of fp_packet_counter w
       = rows ++ [Total_missed_packets m;
                  Total_time_of_observation (number_of_wrap_around self' * 160);
                  Total_time_minus_missed
                    ((number_of_wrap_around self' - m * 1024) * 160)]
    /\ Forall (fun ln => is_row ln = true) rows
    /\ last_udp_packet_counter self' = Some q
    /\ m = q - prev - Z.of_nat (length rows).
Proof.
  intros Hp.
  destruct (retrieve_facts self0 file)
    as (self' & w & rows & m & E & Hw & Hr & H0 & Hm & Hl & Ht & _).
  exists self', w, rows, m, (List.last (map col1 rows) prev).
  split; [exact E|]. split; [exact Hw|]. split; [exact Hr|]. split.
  - rewrite Hl, Hp, <- last_map_Some, map_map. reflexivity.
  - apply Ht. exact Hp.
Qed.

(** X11.  For every file and every decoder object, a detection file holds
    rows only; their second column runs from the counter of the file plus
    one upwards in steps of one and the counter ends at the last number; the
    first column never decreases and lies between 1 and the number of rows
    of the packet-counter file. *)
Theorem X11_detection_file (self0 : Photon_Arrival_Timings) (file : list Z)
    (h : handle) :
  h <> fp_packet_counter ->
  exists self' w,
    retrieve_from_log_file two_channel self0 file = Some (Returns self' w)
    /\ let hrows := lines_of h w in
       Forall (fun ln => is_row ln = true) hrows
       /\ map col1 hrows = Zrange (counter_of h self0 + 1) (length hrows)
       /\ counter_of h self' = counter_of h self0 + Z.of_nat (length hrows)
       /\ Sorted Z.le (map col0 hrows)
       /\ Forall (fun c =>
                    1 <= c
                    <= Z.of_nat (length (lines_of fp_packet_counter w)) - 3)
                 (map col0 hrows).
Proof.
  intros Hh.
  destruct (retrieve_facts self0 file)
    as (self' & w & rows & m & E & Hw & _ & _ & _ & _ & _ & _ & H).
  exists self', w. split; [exact E|]. cbn zeta.
  destruct (H h Hh) as (H1 & H2 & H3 & H4 & H5).
  repeat split; try assumption.
  rewrite Hw, length_app. eapply Forall_impl; [exact H5|].
  intros c Hc. simpl in Hc |- *. lia.
Qed.

(** X12.  A run over any list of files returns, with one output for each
    file; a flag that is set stays set; and the rows of a detection stream,
    taken over all the files in order, are numbered in steps of one from the
    counter of the stream plus one, the counter ending at the last number:
    nothing is reset between files. *)
Theorem X12_run (files : list (list Z)) (self0 : Photon_Arrival_Timings) :
  exists self' ws,
    run two_channel self0 files = Some (self', ws)
    /\ length ws = length files
    /\ (first_wrap_around self0 <> 0 -> first_wrap_around self' <> 0)
    /\ (forall h, h <> fp_packet_counter ->
          let hrows := concat (map (lines_of h) ws) in
          map col1 hrows = Zrange (counter_of h self0 + 1) (length hrows)
          /\ counter_of h self' = counter_of h self0 + Z.of_nat (length hrows)).
Proof.
  revert self0. induction files as [|file files IH]; intros self0.
  - exists self0, []. simpl. repeat split; try tauto; lia.
  - destruct (retrieve_facts self0 file)
      as (self1 & w & rows & m & E & _ & _ & _ & _ & _ & _ & Hf & H).
    destruct (IH self1) as (self2 & ws & Er & Hn & Hf2 & H2).
    exists self2, (w :: ws). cbn [run]. rewrite E, Er.
    split; [reflexivity|]. split; [simpl; lia|]. split; [tauto|].
    intros h Hh. cbn zeta. cbn [map concat].
    destruct (H h Hh) as (_ & A1 & A2 & _). destruct (H2 h Hh) as (B1 & B2).
    rewrite map_app, length_app, Zrange_app, A1, B1, A2, B2.
    split; [do 2 f_equal; lia | lia].
Qed.

(** X13.  A file too short to hold one packet header after the 24 bytes
    that are skipped, the empty file among them, leaves the decoder object as
    it is and gives the summary alone, with no missed packet. *)
Theorem X13_short_file (self0 : Photon_Arrival_Timings) (file : list Z) :
  (length file < 24 + packet_header_size)%nat ->
  retrieve_from_log_file two_channel self0 file
  = Some (Returns self0
            [(fp_packet_counter, Total_missed_packets 0);
             (fp_packet_counter,
              Total_time_of_observation (number_of_wrap_around self0 * 160));
             (fp_packet_counter,
              Total_time_minus_missed
                ((number_of_wrap_around self0 - 0 * 1024) * 160))]).
Proof.
  intros Hlen. unfold retrieve_from_log_file. rewrite packet_loop_S.
  destruct (packet_iteration_eof two_channel (initial_frame self0 file))
    as (p' & h' & E); [reflexivity | exact Hlen |].
  rewrite E. reflexivity.
Qed.

End WholeFileClaims.

Lemma X10_missed_packets_total_witness :
  exists self' w rows m q,
    retrieve_from_log_file true (self sample_gap_frame)
      (replicate 24 0 ++ sample_header 4 28 8 ++ [40])
    = Some (Returns self' w)
    /\ lines_of fp_packet_counter w
       = rows ++ [Total_missed_packets m;
                  Total_time_of_observation (number_of_wrap_around self' * 160);
                  Total_time_minus_missed
                    ((number_of_wrap_around self' - m * 1024) * 160)]
    /\ Forall (fun ln => is_row ln = true) rows
    /\ last_udp_packet_counter self' = Some q
    /\ m = q - 5 - Z.of_nat (length rows).
Proof.
  apply (X10_missed_packets_total true (self sample_gap_frame)). reflexivity.
Defined.

Lemma X11_detection_file_witness :
  exists self' w,
    retrieve_from_log_file true PAT_init sample_short_file = Some (Returns self' w)
    /\ map col1 (lines_of fp_apd_a_detection w)
       = Zrange 1 (length (lines_of fp_apd_a_detection w)).
Proof.
  destruct (X11_detection_file true PAT_init sample_short_file fp_apd_a_detection)
    as (self' & w & E & _ & H & _); [discriminate|].
  exists self', w. split; [exact E | exact H].
Defined.

Lemma X13_short_file_witness :
  retrieve_from_log_file false PAT_init []
  = Some (Returns PAT_init
            [(fp_packet_counter, Total_missed_packets 0);
             (fp_packet_counter, Total_time_of_observation 0);
             (fp_packet_counter, Total_time_minus_missed 0)]).
Proof.
  apply (X13_short_file false PAT_init []). simpl. lia.
Defined.

Section IntactCapture.

Variable two_channel : bool.

(** The loop on what is left of an intact capture file: one turn for each
    packet, then the end of the file. *)
Lemma packet_loop_intact (packets : list (list Z * list Z)) (fuel : nat)
    (fr : frame) :
  length (packet_header fr) = packet_header_size ->
  drop (position (fp_file fr)) (data (fp_file fr))
  = concat (map (fun hp => fst hp ++ snd hp) packets) ->
  Forall intact_packet packets ->
  (length packets < fuel)%nat ->
  exists fr',
    packet_loop two_channel fuel fr = Some (StopIteration, fr')
    /\ progress_of fr'
       = decode_packets two_channel (map packet_of packets) (progress_of fr).
Proof.
  revert fuel fr. induction packets as [|[h p] packets IH];
    intros fuel fr Hh Hd Hi Hfuel.
  - destruct fuel as [|fuel]; [simpl in Hfuel; lia|]. rewrite packet_loop_S.
    assert (Hlen : (length (data (fp_file fr)) <= position (fp_file fr))%nat).
    { pose proof (length_drop (data (fp_file fr)) (position (fp_file fr))) as L.
      rewrite Hd in L. simpl in L. lia. }
    assert (H90 : (0 < packet_header_size)%nat)
      by (unfold packet_header_size; lia).
    destruct (packet_iteration_eof two_channel fr Hh) as (p' & h' & E); [lia|].
    rewrite E. eexists. split; reflexivity.
  - destruct fuel as [|fuel]; [simpl in Hfuel; lia|]. rewrite packet_loop_S.
    inversion Hi as [|? ? (Hh90 & Hpl & Hp1024) Hi']; subst.
    cbn [fst snd] in Hh90, Hpl, Hp1024.
    cbn [map concat fst snd] in Hd. rewrite <- !app_assoc in Hd.
    set (d := data (fp_file fr)) in *. set (pos := position (fp_file fr)) in *.
    set (rest := concat (map (fun hp => fst hp ++ snd hp) packets)) in *.
    assert (Hlen : length (drop pos d) = (length d - pos)%nat) by apply length_drop.
    rewrite Hd, !length_app, Hh90, Hp1024 in Hlen.
    assert (Hhd : header_at (fp_file fr) = h).
    { unfold header_at. fold d pos. rewrite Hd.
      apply take_app_length'. symmetry. exact Hh90. }
    assert (Hd2 : drop (pos + packet_header_size) d = p ++ rest).
    { rewrite <- drop_drop, Hd. apply drop_app_length'. symmetry. exact Hh90. }
    assert (Hpay : take sub_data_array_size (drop (pos + packet_header_size) d) = p).
    { rewrite Hd2. apply take_app_length'. symmetry. exact Hp1024. }
    destruct (header_fields h Hh90) as [_ [cur Hc]].
    assert (H90 : (0 < packet_header_size)%nat)
      by (unfold packet_header_size; lia).
    assert (Hp : (pos + packet_header_size <= length d)%nat) by lia.
    pose proof (packet_iteration_valid two_channel fr cur Hh Hp) as E.
    rewrite Hhd in E. specialize (E Hpl Hc). cbn zeta in E.
    fold d pos in E. rewrite Hpay in E. rewrite E.
    match goal with
    | |- context [packet_loop two_channel fuel ?fr1] =>
        destruct (IH fuel fr1) as (fr' & El & Ep)
    end.
    + cbn [packet_header]. rewrite Hhd. exact Hh90.
    + cbn [fp_file data position]. rewrite <- drop_drop, Hd2.
      apply drop_app_length.
    + exact Hi'.
    + simpl in Hfuel. lia.
    + exists fr'. split; [exact El|]. rewrite Ep.
      cbn [map]. unfold packet_of at 2. cbn [fst snd]. rewrite Hc.
      reflexivity.
Qed.

Lemma intact_capture_decodes (self0 : Photon_Arrival_Timings)
    (file_header : list Z) (packets : list (list Z * list Z)) :
  length file_header = 24%nat ->
  Forall intact_packet packets ->
  let st := decode_packets two_channel (map packet_of packets) (start self0) in
  retrieve_from_log_file two_channel self0 (capture file_header packets)
  = Some (Returns (dec st) (written st ++ summary_of st)).
Proof.
  intros Hfh Hi. cbn zeta. unfold retrieve_from_log_file.
  destruct (packet_loop_intact packets
              (S (length (capture file_header packets)))
              (initial_frame self0 (capture file_header packets)))
    as (fr' & E & Ep).
  - reflexivity.
  - cbn [initial_frame fp_file seek_set data position]. unfold capture.
    apply drop_app_length'. symmetry. exact Hfh.
  - exact Hi.
  - unfold capture. rewrite length_app.
    assert (H : (length packets
                 <= length (concat (map (fun hp => fst hp ++ snd hp) packets)))%nat).
    { clear -Hi. induction Hi as [|[h p] l (Hh & _ & _) _ IH]; [simpl; lia|].
      cbn [map concat fst snd length]. rewrite !length_app.
      cbn [fst] in Hh. rewrite Hh. unfold packet_header_size at 1. lia. }
    lia.
  - rewrite E.
    assert (Hs : progress_of (initial_frame self0 (capture file_header packets))
                 = start self0) by reflexivity.
    rewrite Hs in Ep.
    change (finalize (Some (StopIteration, fr')))
      with (Some (Returns (self fr') (out fr' ++ summary fr'))).
    change (self fr') with (dec (progress_of fr')).
    change (out fr') with (written (progress_of fr')).
    change (summary fr') with (summary_of (progress_of fr')).
    rewrite Ep. reflexivity.
Qed.

(** X14.  An intact capture file, the 24 bytes of the file header followed
    by packets with a 90-byte header declaring length 1052 and a 1024-byte
    payload, is decoded packet by packet in the order of the file: the
    result of [retrieve_from_log_file] is the accounting and classification
    of each packet in turn, from the decoder object given, followed by the
    summary. *)
Theorem X14_intact_capture (self0 : Photon_Arrival_Timings)
    (file_header : list Z) (packets : list (list Z * list Z)) :
  length file_header = 24%nat ->
  Forall intact_packet packets ->
  let st := decode_packets two_channel (map packet_of packets) (start self0) in
  retrieve_from_log_file two_channel self0 (capture file_header packets)
  = Some (Returns (dec st) (written st ++ summary_of st)).
Proof. apply intact_capture_decodes. Qed.

End IntactCapture.

Lemma X14_intact_capture_witness :
  retrieve_from_log_file true PAT_init
    (capture (replicate 24 0)
       [(sample_header 4 28 5, 159 :: 40 :: replicate 1022 0);
        (sample_header 4 28 8, 100 :: replicate 1023 0)])
  = Some (Returns
            (mkPAT 2 1 1 2048 1 (Some 8))
            [(fp_packet_counter, Row 1 5 1);
             (fp_apd_a_detection, Row 1 1 40);
             (fp_packet_counter, Row 2 8 3);
             (fp_apd_coincidence, Row 2 1 327700);
             (fp_apd_a_detection, Row 2 2 327700);
             (fp_apd_b_detection, Row 2 1 327700);
             (fp_packet_counter, Total_missed_packets 2);
             (fp_packet_counter, Total_time_of_observation 327680);
             (fp_packet_counter, Total_time_minus_missed 0)]).
Proof.
  rewrite (X14_intact_capture true PAT_init (replicate 24 0)
             [(sample_header 4 28 5, 159 :: 40 :: replicate 1022 0);
              (sample_header 4 28 8, 100 :: replicate 1023 0)]).
  - vm_compute. reflexivity.
  - reflexivity.
  - repeat constructor.
Defined.

(** * Header fields, observation time, loading and file names *)

(** X15.  When the bytes of a header are between 0 and 255, the declared
    length is between 0 and 65535 and the sequence counter between 0 and
    4294967295; two such headers with the same sequence counter have the
    same bytes 86 to 89. *)
Theorem X15_header_fields (h h' : list Z) :
  Forall (fun b => 0 <= b <= 255) h ->
  Forall (fun b => 0 <= b <= 255) h' ->
  (forall pl, packet_length_of h = Some pl -> 0 <= pl <= 65535)
  /\ (forall c, udp_packet_counter_of h = Some c -> 0 <= c <= 4294967295)
  /\ (forall c,
        udp_packet_counter_of h = Some c -> udp_packet_counter_of h' = Some c ->
        h !! 86%nat = h' !! 86%nat /\ h !! 87%nat = h' !! 87%nat
        /\ h !! 88%nat = h' !! 88%nat /\ h !! 89%nat = h' !! 89%nat).
Proof.
  intros Hb Hb'.
  assert (B : forall (l : list Z) i b,
            Forall (fun b => 0 <= b <= 255) l -> l !! i = Some b -> 0 <= b <= 255).
  { intros l i b Hl Hi. exact (proj1 (Forall_lookup _ l) Hl i b Hi). }
  unfold packet_length_of, udp_packet_counter_of.
  split; [|split].
  - intros pl H.
    destruct (h !! 32%nat) as [b32|] eqn:E32; [|discriminate H].
    destruct (h !! 33%nat) as [b33|] eqn:E33; [|discriminate H].
    injection H as <-.
    pose proof (B _ _ _ Hb E32). pose proof (B _ _ _ Hb E33). lia.
  - intros c H.
    destruct (h !! 86%nat) as [b86|] eqn:E86; [|discriminate H].
    destruct (h !! 87%nat) as [b87|] eqn:E87; [|discriminate H].
    destruct (h !! 88%nat) as [b88|] eqn:E88; [|discriminate H].
    destruct (h !! 89%nat) as [b89|] eqn:E89; [|discriminate H].
    injection H as <-.
    pose proof (B _ _ _ Hb E86). pose proof (B _ _ _ Hb E87).
    pose proof (B _ _ _ Hb E88). pose proof (B _ _ _ Hb E89). lia.
  - intros c H H'.
    destruct (h !! 86%nat) as [b86|] eqn:E86; [|discriminate H].
    destruct (h !! 87%nat) as [b87|] eqn:E87; [|discriminate H].
    destruct (h !! 88%nat) as [b88|] eqn:E88; [|discriminate H].
    destruct (h !! 89%nat) as [b89|] eqn:E89; [|discriminate H].
    destruct (h' !! 86%nat) as [c86|] eqn:F86; [|discriminate H'].
    destruct (h' !! 87%nat) as [c87|] eqn:F87; [|discriminate H'].
    destruct (h' !! 88%nat) as [c88|] eqn:F88; [|discriminate H'].
    destruct (h' !! 89%nat) as [c89|] eqn:F89; [|discriminate H'].
    injection H as <-. injection H' as H'.
    pose proof (B _ _ _ Hb E86). pose proof (B _ _ _ Hb E87).
    pose proof (B _ _ _ Hb E88). pose proof (B _ _ _ Hb E89).
    pose proof (B _ _ _ Hb' F86). pose proof (B _ _ _ Hb' F87).
    pose proof (B _ _ _ Hb' F88). pose proof (B _ _ _ Hb' F89).
    assert (b86 = c86) by lia. assert (b87 = c87) by lia.
    assert (b88 = c88) by lia. assert (b89 = c89) by lia.
    subst. repeat split.
Qed.

Lemma X15_header_fields_witness :
  udp_packet_counter_of (sample_header 4 28 8) = Some 8
  /\ 0 <= 8 <= 4294967295.
Proof.
  split; [reflexivity|].
  apply (X15_header_fields (sample_header 4 28 8) (sample_header 4 28 8)).
  - vm_compute. repeat constructor; discriminate.
  - vm_compute. repeat constructor; discriminate.
  - reflexivity.
Defined.

Section ObservationTime.

Variable two_channel : bool.

(** With the flag set, the wrap-around counter less 1024 per missed packet
    moves on by the markers and the events in overflow form of the payloads,
    and by nothing else. *)
Lemma decode_packets_observed (pkts : list (Z * list Z)) (st : progress) :
  first_wrap_around (dec st) <> 0 ->
  let st' := decode_packets two_channel pkts st in
  number_of_wrap_around (dec st') - missed st' * 1024
  = number_of_wrap_around (dec st) - missed st * 1024
    + Z.of_nat (count_samples (advances_wrap two_channel)
                              (concat (map snd pkts))).
Proof.
  revert st. induction pkts as [|pkt pkts IH]; intros st Hf; cbn zeta.
  - simpl. unfold count_samples. simpl. lia.
  - change (decode_packets two_channel (pkt :: pkts) st)
      with (decode_packets two_channel pkts (decode_packet two_channel st pkt)).
    destruct (decode_packet_facts two_channel st pkt) as (_ & _ & _ & Hm & Hf1 & _).
    rewrite (IH _ (Hf1 Hf)). rewrite Hm.
    cbn [map concat]. unfold count_samples at 2.
    rewrite List.filter_app, length_app.
    fold (count_samples (advances_wrap two_channel) (snd pkt)).
    fold (count_samples (advances_wrap two_channel) (concat (map snd pkts))).
    unfold decode_packet. cbn [dec].
    rewrite classify_all_wrap by exact Hf. cbn [number_of_wrap_around set_last set_wrap].
    lia.
Qed.

(** X16.  For an intact capture file decoded by an object whose flag is
    set, the last line of the summary, the observation time less the time
    of the missed packets, is 160 times the wrap-around counter at the start
    of the file plus the number of markers and tracked events in overflow
    form in the payloads of the file: the gaps in the sequence counters
    cancel out. *)
Theorem X16_observed_time (self0 : Photon_Arrival_Timings)
    (file_header : list Z) (packets : list (list Z * list Z)) :
  length file_header = 24%nat ->
  Forall intact_packet packets ->
  first_wrap_around self0 <> 0 ->
  exists self' w,
    retrieve_from_log_file two_channel self0 (capture file_header packets)
    = Some (Returns self' w)
    /\ List.last w (fp_packet_counter, Total_missed_packets 0)
       = (fp_packet_counter,
          Total_time_minus_missed
            ((number_of_wrap_around self0
              + Z.of_nat (count_samples (advances_wrap two_channel)
                                        (concat (map snd packets))))
             * 160)).
Proof.
  intros Hfh Hi Hf.
  assert (E : let st := decode_packets two_channel (map packet_of packets)
                          (start self0) in
              retrieve_from_log_file two_channel self0 (capture file_header packets)
              = Some (Returns (dec st) (written st ++ summary_of st))).
  { apply (intact_capture_decodes two_channel); assumption. }
  cbn zeta in E. eexists. eexists. split; [exact E|].
  pose proof (decode_packets_observed (map packet_of packets) (start self0) Hf) as H.
  cbn zeta in H. cbn [start dec missed] in H.
  unfold summary_of.
  match goal with
  | |- List.last (?l ++ [?a; ?b; ?c]) _ = _ =>
      replace (l ++ [a; b; c]) with ((l ++ [a; b]) ++ [c])
        by (rewrite <- app_assoc; reflexivity)
  end.
  rewrite List.last_last. unfold time_for_one_wrap_around. rewrite H.
  replace (map snd (map packet_of packets)) with (map snd packets)
    by (rewrite map_map; apply map_ext; intros hp; reflexivity).
  do 3 f_equal. lia.
Qed.

End ObservationTime.

Lemma X16_observed_time_witness :
  exists self' w,
    retrieve_from_log_file true (set_first 1 PAT_init)
      (capture (replicate 24 0)
         [(sample_header 4 28 5, 159 :: 170 :: replicate 1022 0)])
    = Some (Returns self' w)
    /\ List.last w (fp_packet_counter, Total_missed_packets 0)
       = (fp_packet_counter, Total_time_minus_missed 320).
Proof.
  destruct (X16_observed_time true (set_first 1 PAT_init) (replicate 24 0)
              [(sample_header 4 28 5, 159 :: 170 :: replicate 1022 0)])
    as (self' & w & E & H).
  - reflexivity.
  - repeat constructor.
  - simpl. lia.
  - exists self', w. split; [exact E|]. rewrite H. vm_compute. reflexivity.
Defined.


Module FileNamesFacts.

Import String.
Import FileNames.
Local Open Scope string_scope.

(** X18.  Whatever the input file, the name of the output file of one
    handle begins with the prefix of another handle only when the two
    handles are the same: the four output files of an input file have four
    different names, and a search by the prefix of one channel finds the
    files of that channel only. *)
Theorem X18_output_names (with_suffix_dat : string -> string) (file : string)
    (h h' : handle) :
  prefix (prefix_of h) (make_file_name with_suffix_dat (prefix_of h') file) = true
  <-> h = h'.
Proof.
  unfold make_file_name.
  destruct h, h'; simpl; split; intros H;
    first [ reflexivity | discriminate H ].
Qed.

End FileNamesFacts.

(** * Instances *)

Lemma X1_channel_b_events_witness :
  sample_step true (set_first 1 PAT_init) 1 70
  = (set_apd_b 1 (set_first 1 PAT_init), [(fp_apd_b_detection, Row 1 1 30)])
  /\ snd (sample_step true (set_first 1 PAT_init) 1 200)
     = [(fp_apd_b_detection, Row 1 1 40)].
Proof.
  split.
  - apply (X1_channel_b_events (set_first 1 PAT_init) 1 70); simpl; lia.
  - rewrite (proj2 (X1_channel_b_events (set_first 1 PAT_init) 1 200
                      ltac:(simpl; lia)) ltac:(lia)).
    reflexivity.
Defined.

Lemma X2_ignored_samples_witness :
  sample_step false (set_first 1 PAT_init) 1 200 = (set_first 1 PAT_init, [])
  /\ sample_step true (set_first 1 PAT_init) 1 130 = (set_first 1 PAT_init, []).
Proof.
  split.
  - apply (X2_ignored_samples false). right. right. right.
    split; [reflexivity | right; lia].
  - apply (X2_ignored_samples true). right. left. lia.
Defined.

Lemma X3_wrap_around_count_witness :
  exists self' w,
    detection_and_timing_of_pulses true (set_first 1 PAT_init)
      [159; 40; 170; 200; 230; 10] 1 = Some (self', w)
    /\ number_of_wrap_around self' = 4.
Proof.
  destruct (X3_wrap_around_count true (set_first 1 PAT_init) 1
              [159; 40; 170; 200; 230; 10])
    as (self' & w & E & H & _); [simpl; lia|].
  exists self', w. split; [exact E|]. rewrite H. reflexivity.
Defined.

Lemma X5_timestamp_bounds_witness :
  exists self' w,
    detection_and_timing_of_pulses false (set_first 1 PAT_init)
      [40; 159; 170; 100] 1 = Some (self', w)
    /\ Forall (fun t => 0 <= t /\ t <= number_of_wrap_around self' * 160 + 155
                        /\ (5 | t))
              (timestamps w).
Proof.
  apply (X5_timestamp_bounds false (set_first 1 PAT_init) 1 [40; 159; 170; 100]).
  simpl. lia.
Defined.

Lemma X6_flag_after_payload_witness :
  exists self' w,
    detection_and_timing_of_pulses true PAT_init [40; 159; 41] 1 = Some (self', w)
    /\ first_wrap_around self' <> 0.
Proof.
  destruct (X6_flag_after_payload true PAT_init 1 [40; 159; 41])
    as (self' & w & E & H).
  exists self', w. split; [exact E|]. apply H. right. simpl. tauto.
Defined.

Lemma X7_counter_before_first_marker_witness :
  detection_and_timing_of_pulses true (set_wrap 2048 PAT_init) [40; 159; 41] 1
  = detection_and_timing_of_pulses true PAT_init [40; 159; 41] 1.
Proof.
  apply (X7_counter_before_first_marker true PAT_init 1 2048 [40; 159; 41]).
  - reflexivity.
  - simpl. tauto.
Defined.

Lemma X8_variants_agree_witness :
  exists s2 w2 s1 w1,
    detection_and_timing_of_pulses true PAT_init [159; 40; 70; 100; 230] 1
    = Some (s2, w2)
    /\ detection_and_timing_of_pulses false PAT_init [159; 40; 70; 100; 230] 1
       = Some (s1, w1)
    /\ s1 = set_apd_b (apd_b_detection PAT_init) s2
    /\ lines_of fp_apd_a_detection w1 = lines_of fp_apd_a_detection w2
    /\ lines_of fp_apd_coincidence w1 = lines_of fp_apd_coincidence w2
    /\ lines_of fp_apd_b_detection w1 = [].
Proof.
  apply (X8_variants_agree PAT_init 1 [159; 40; 70; 100; 230]).
  intros v Hv. simpl in Hv. lia.
Defined.

Lemma X12_run_witness :
  exists self' ws,
    run true (set_first 1 PAT_init) [sample_short_file; []; sample_resync_file]
    = Some (self', ws)
    /\ length ws = 3%nat
    /\ first_wrap_around self' <> 0.
Proof.
  destruct (X12_run true [sample_short_file; []; sample_resync_file]
              (set_first 1 PAT_init))
    as (self' & ws & E & Hn & Hf & _).
  exists self', ws. split; [exact E|]. split; [exact Hn|].
  apply Hf. simpl. lia.
Defined.

Lemma X18_output_names_witness :
  String.prefix FileNames.apd_a_detection_prefix
    (FileNames.make_file_name (fun s => s) FileNames.apd_a_detection_prefix
       String.EmptyString)
  = true.
Proof.
  apply (FileNamesFacts.X18_output_names (fun s => s) String.EmptyString
           fp_apd_a_detection fp_apd_a_detection).
  reflexivity.
Defined.
